(** * The economy engine of the XP bot (api/bot.py)

    A shallow embedding of the level calculator, the reward dispenser, the
    ledger writes and the shop / rank resolver of [api/bot.py], together with
    the properties the specification states about them.

    Python integers are unbounded and are modelled by [Z]; [//] is [Z.div]
    (floor), [int(...)] of a float truncates toward zero ([Z.quot]).  The
    one float computation of the code, [int(required_xp * 1.5)] in the level
    calculator, is modelled twice: in binary64 arithmetic, as the code runs
    it ([calculate_level_binary64], [calculate_xp_for_level_binary64]), and
    in exact arithmetic ([calculate_level], [calculate_xp_for_level]), which
    gives the same levels while three times the xp is below 2^53
    ([calculate_level_binary64_exact]) and is what the ledger writers use.
    Strings are the UTF-8 bytes of the source strings.  The handlers run in
    a monad over the store (the [users] table and the two logs), the clock
    and the messages sent, with Python's exceptions; the store itself never
    fails and the clock is read as one instant per event. *)

From Stdlib Require Import ZArith Lia List Ascii String.
From stdpp Require Import gmap strings pretty.
Import ListNotations.

Local Open Scope Z_scope.

(** ** Config *)

Definition XP_PER_MESSAGE : Z := 5.
Definition COINS_PER_MESSAGE : Z := 2.
Definition DAILY_REWARD_COINS : Z := 100.
Definition DAILY_REWARD_XP : Z := 50.
Definition BASE_XP : Z := 100.

(** [XP_MULTIPLIER = 1.5], kept as the fraction 3/2. *)
Definition XP_MULTIPLIER_num : Z := 3.
Definition XP_MULTIPLIER_den : Z := 2.

(** [int(required_xp * Config.XP_MULTIPLIER)] in exact arithmetic.  The
    product is a binary64 float; while it stays below 2^52 (required_xp up
    to about 3 * 10^15) it is exactly the rational 3r/2, which has at most
    one fractional bit, and [int] drops the fraction toward zero.  Above
    that the code's product is rounded, and from 2^1024 on it overflows:
    see [scale_required_xp_binary64]. *)
Definition scale_required_xp (required_xp : Z) : Z :=
  Z.quot (required_xp * XP_MULTIPLIER_num) XP_MULTIPLIER_den.

(** ** Level calculator *)

(** The [while xp >= required_xp] loop of [calculate_level].  Each turn
    consumes one unit of fuel; [None] means the fuel ran out before the loop
    condition failed. *)
Fixpoint level_loop (fuel : nat) (xp level required_xp : Z) : option Z :=
  match fuel with
  | O => None
  | S fuel' =>
      if xp >=? required_xp
      then level_loop fuel' (xp - required_xp) (level + 1)
                      (scale_required_xp required_xp)
      else Some level
  end.

(** [calculate_level(xp)] in exact arithmetic: [level = 1],
    [required_xp = BASE_XP], then the loop.  The loop runs at most [xp]
    times when [required_xp] is positive, so [xp + 1] units of fuel always
    suffice (see [calculate_level_total]). *)
Definition calculate_level (xp : Z) : option Z :=
  level_loop (S (Z.to_nat xp)) xp 1 BASE_XP.

(** The body of [for i in range(1, level)] in [calculate_xp_for_level],
    run [n] times. *)
Fixpoint xp_for_loop (n : nat) (total_xp required_xp : Z) : Z :=
  match n with
  | O => total_xp
  | S n' => xp_for_loop n' (total_xp + required_xp)
                        (scale_required_xp required_xp)
  end.

(** [calculate_xp_for_level(level)] in exact arithmetic: [range(1, level)]
    has [level - 1] elements, none when [level <= 1]. *)
Definition calculate_xp_for_level (level : Z) : Z :=
  xp_for_loop (Z.to_nat (level - 1)) 0 BASE_XP.

(** ** Configuration tables *)

(** [Config.RANK_PRICES]: a dict, kept as the list of its items in insertion
    order. *)
Definition RANK_PRICES : list (string * Z) :=
  [ ("VIP", 5000); ("Premium", 15000); ("Admin", 50000) ].

Inductive item_type := boost | cosmetic.

Record ShopItem := {
  price : Z;
  type : item_type;
  duration : option Z
}.

(** [Config.SHOP_ITEMS], in insertion order (the order of
    [list(Config.SHOP_ITEMS.keys())]).  Names are the UTF-8 bytes of the
    source strings. *)
Definition SHOP_ITEMS : list (string * ShopItem) :=
  [ ("🎯 Double XP (1 hour)",
      {| price := 500; type := boost; duration := Some 3600 |});
    ("💰 Coin Multiplier (1 hour)",
      {| price := 750; type := boost; duration := Some 3600 |});
    ("🌟 Custom Title",
      {| price := 2000; type := cosmetic; duration := None |});
    ("🎨 Profile Theme",
      {| price := 1500; type := cosmetic; duration := None |});
    ("🏆 Achievement Badge",
      {| price := 3000; type := cosmetic; duration := None |}) ].

(** ** Python values *)

(** The exceptions the modelled code can raise. *)
Inductive exn :=
| UnboundLocalError
| AttributeError
| KeyError
| IndexError
| ValueError
| TypeError
| OverflowError.

(** A naive [datetime]: the proleptic Gregorian ordinal of its date
    ([date.toordinal()]) and its time of day. *)
Record datetime := {
  ordinal : Z;
  hour : Z;
  minute : Z;
  second : Z;
  microsecond : Z
}.

(** [dt.date()]; dates are compared and shifted through their ordinal. *)
Definition date (dt : datetime) : Z := ordinal dt.

(** [str.split(sep)] for a one-character separator. *)
Fixpoint split (sep : ascii) (s : string) : list string :=
  match s with
  | EmptyString => [EmptyString]
  | String c rest =>
      if Ascii.eqb c sep then EmptyString :: split sep rest
      else match split sep rest with
           | [] => [String c EmptyString]
           | part :: parts => String c part :: parts
           end
  end.

Definition map_ascii_letter (lo hi : N) (shift : N -> N) (c : ascii) : ascii :=
  let n := N_of_ascii c in
  if ((lo <=? n) && (n <=? hi))%N then ascii_of_N (shift n) else c.

(** Text without a byte above 127 ([str.isascii()]), and text of printable
    ASCII characters other than the space (bytes 33 to 126).  The models of
    [str.upper()], [str.lower()] and [int(...)] below are Python's on such
    text: on ASCII text for the first two, on ASCII text free of white space
    for the third. *)
Fixpoint all_bytes (p : N -> bool) (s : string) : bool :=
  match s with
  | EmptyString => true
  | String c rest => p (N_of_ascii c) && all_bytes p rest
  end.


Definition ascii_graphic (s : string) : bool :=
  all_bytes (fun n => (33 <=? n) && (n <=? 126))%N s.

(** [str.upper()] and [str.lower()] on ASCII text (bytes above 127 are left
    alone, where Python maps the letters they encode). *)
Fixpoint upper (s : string) : string :=
  match s with
  | EmptyString => EmptyString
  | String c rest => String (map_ascii_letter 97 122 (fun n => n - 32)%N c) (upper rest)
  end.

Fixpoint lower (s : string) : string :=
  match s with
  | EmptyString => EmptyString
  | String c rest => String (map_ascii_letter 65 90 (fun n => n + 32)%N c) (lower rest)
  end.

Definition digit_value (c : ascii) : option Z :=
  let n := N_of_ascii c in
  if ((48 <=? n) && (n <=? 57))%N then Some (Z.of_N n - 48) else None.

Fixpoint digits_value (acc : Z) (s : string) : option Z :=
  match s with
  | EmptyString => Some acc
  | String c rest =>
      match digit_value c with
      | Some d => digits_value (10 * acc + d) rest
      | None => None
      end
  end.

(** [int(s)] for a string: an optional sign and at least one ASCII digit;
    anything else is a [ValueError] ([None] here).  Surrounding white space
    and non-ASCII digits, which Python also accepts, do not occur in the
    callback data the bot's keyboards produce and are not accepted here;
    underscores between digits do not survive the [split] before it. *)
Definition int_of_str (s : string) : option Z :=
  match s with
  | EmptyString => None
  | String "-" EmptyString | String "+" EmptyString => None
  | String "-" rest => Z.opp <$> digits_value 0 rest
  | String "+" rest => digits_value 0 rest
  | _ => digits_value 0 s
  end.

(** [l[i]] on a list: negative indices count from the end. *)
Definition list_getitem {A} (l : list A) (i : Z) : option A :=
  let n := Z.of_nat (length l) in
  if (0 <=? i) && (i <? n) then l !! Z.to_nat i
  else if (- n <=? i) && (i <? 0) then l !! Z.to_nat (n + i)
  else None.

(** [d[k]] and [d.keys()] on a dict kept as its item list. *)
Fixpoint dict_getitem {V} (d : list (string * V)) (k : string) : option V :=
  match d with
  | [] => None
  | (k', v) :: d' => if String.eqb k' k then Some v else dict_getitem d' k
  end.

Definition keys {V} (d : list (string * V)) : list string := d.*1.

(** [list.index(x)]. *)
Fixpoint list_index (l : list string) (x : string) : option Z :=
  match l with
  | [] => None
  | y :: l' => if String.eqb y x then Some 0 else Z.succ <$> list_index l' x
  end.

(** ** The store and the transport *)

(** A row of the [users] table. *)
Record User := {
  row_user_id : Z;
  row_username : option string;
  row_first_name : option string;
  row_xp : Z;
  row_level : Z;
  row_coins : Z;
  row_rank : string;
  row_last_daily : option datetime;
  row_daily_streak : Z;
  row_total_messages : Z;
  row_join_date : datetime;
  row_last_active : datetime
}.

(** Field writes of [update({...})] dicts. *)
Definition set_xp (v : Z) (u : User) : User :=
  {| row_user_id := row_user_id u; row_username := row_username u;
     row_first_name := row_first_name u; row_xp := v; row_level := row_level u;
     row_coins := row_coins u; row_rank := row_rank u;
     row_last_daily := row_last_daily u; row_daily_streak := row_daily_streak u;
     row_total_messages := row_total_messages u; row_join_date := row_join_date u;
     row_last_active := row_last_active u |}.

Definition set_level (v : Z) (u : User) : User :=
  {| row_user_id := row_user_id u; row_username := row_username u;
     row_first_name := row_first_name u; row_xp := row_xp u; row_level := v;
     row_coins := row_coins u; row_rank := row_rank u;
     row_last_daily := row_last_daily u; row_daily_streak := row_daily_streak u;
     row_total_messages := row_total_messages u; row_join_date := row_join_date u;
     row_last_active := row_last_active u |}.

Definition set_coins (v : Z) (u : User) : User :=
  {| row_user_id := row_user_id u; row_username := row_username u;
     row_first_name := row_first_name u; row_xp := row_xp u; row_level := row_level u;
     row_coins := v; row_rank := row_rank u;
     row_last_daily := row_last_daily u; row_daily_streak := row_daily_streak u;
     row_total_messages := row_total_messages u; row_join_date := row_join_date u;
     row_last_active := row_last_active u |}.

Definition set_rank (v : string) (u : User) : User :=
  {| row_user_id := row_user_id u; row_username := row_username u;
     row_first_name := row_first_name u; row_xp := row_xp u; row_level := row_level u;
     row_coins := row_coins u; row_rank := v;
     row_last_daily := row_last_daily u; row_daily_streak := row_daily_streak u;
     row_total_messages := row_total_messages u; row_join_date := row_join_date u;
     row_last_active := row_last_active u |}.

Definition set_last_daily (v : option datetime) (u : User) : User :=
  {| row_user_id := row_user_id u; row_username := row_username u;
     row_first_name := row_first_name u; row_xp := row_xp u; row_level := row_level u;
     row_coins := row_coins u; row_rank := row_rank u;
     row_last_daily := v; row_daily_streak := row_daily_streak u;
     row_total_messages := row_total_messages u; row_join_date := row_join_date u;
     row_last_active := row_last_active u |}.

Definition set_daily_streak (v : Z) (u : User) : User :=
  {| row_user_id := row_user_id u; row_username := row_username u;
     row_first_name := row_first_name u; row_xp := row_xp u; row_level := row_level u;
     row_coins := row_coins u; row_rank := row_rank u;
     row_last_daily := row_last_daily u; row_daily_streak := v;
     row_total_messages := row_total_messages u; row_join_date := row_join_date u;
     row_last_active := row_last_active u |}.

Definition set_total_messages (v : Z) (u : User) : User :=
  {| row_user_id := row_user_id u; row_username := row_username u;
     row_first_name := row_first_name u; row_xp := row_xp u; row_level := row_level u;
     row_coins := row_coins u; row_rank := row_rank u;
     row_last_daily := row_last_daily u; row_daily_streak := row_daily_streak u;
     row_total_messages := v; row_join_date := row_join_date u;
     row_last_active := row_last_active u |}.

Definition set_last_active (v : datetime) (u : User) : User :=
  {| row_user_id := row_user_id u; row_username := row_username u;
     row_first_name := row_first_name u; row_xp := row_xp u; row_level := row_level u;
     row_coins := row_coins u; row_rank := row_rank u;
     row_last_daily := row_last_daily u; row_daily_streak := row_daily_streak u;
     row_total_messages := row_total_messages u; row_join_date := row_join_date u;
     row_last_active := v |}.

(** Rows of the [transactions] and [level_ups] logs. *)
Record Transaction := {
  tx_user_id : Z;
  tx_type : string;
  tx_amount : Z;
  tx_description : string;
  tx_timestamp : datetime
}.

Record LevelUp := {
  lu_user_id : Z;
  lu_old_level : Z;
  lu_new_level : Z;
  lu_timestamp : datetime
}.

(** What the handlers send back; the text templates are presentation, each
    constructor carries the values its template interpolates. *)
Inductive Reply :=
| AlreadyClaimedText (time_left : string)
| DailyErrorText (reason : string)
| DailyRewardText (total_coins total_xp streak streak_bonus : Z) (new_level : option Z)
| DailyFailedText
| LevelUpText (level xp coins : Z)
| ItemInsufficientFundsText (item_name : string) (item_price coins : Z)
| PurchaseSuccessText (item_name : string) (item_price new_coins : Z)
| PurchaseFailedText
| RankInsufficientFundsText (rank : string) (rank_price coins : Z)
| RankUpgradeSuccessText (rank : string) (rank_price new_coins : Z)
| RankUpgradeFailedText
| ShopText (coins : Z) (buttons : list string)
| ShopFailedText.

(** [update.effective_user] / [query.from_user] and [update.effective_chat]. *)
Record TelegramUser := {
  tg_id : Z;
  tg_username : option string;
  tg_first_name : option string;
  is_bot : bool
}.

Record Chat := { chat_type : string }.

(** Everything a handler can read or write: the three tables, the wall
    clock (read once per event) and the messages sent so far. *)
Record World := {
  users : gmap Z User;
  transactions : list Transaction;
  level_ups : list LevelUp;
  clock : datetime;
  outbox : list Reply
}.

Definition with_users (f : gmap Z User -> gmap Z User) (w : World) : World :=
  {| users := f (users w); transactions := transactions w;
     level_ups := level_ups w; clock := clock w; outbox := outbox w |}.

Definition with_transactions (f : list Transaction -> list Transaction) (w : World) : World :=
  {| users := users w; transactions := f (transactions w);
     level_ups := level_ups w; clock := clock w; outbox := outbox w |}.

Definition with_level_ups (f : list LevelUp -> list LevelUp) (w : World) : World :=
  {| users := users w; transactions := transactions w;
     level_ups := f (level_ups w); clock := clock w; outbox := outbox w |}.

Definition with_outbox (f : list Reply -> list Reply) (w : World) : World :=
  {| users := users w; transactions := transactions w;
     level_ups := level_ups w; clock := clock w; outbox := f (outbox w) |}.

(** ** The handler monad: state, exceptions, fuel *)

Inductive outcome (A : Type) :=
| Returns (a : A)
| Raises (e : exn)
| OutOfFuel.
Arguments Returns {A} a.
Arguments Raises {A} e.
Arguments OutOfFuel {A}.

(** ** Level calculator in binary64 arithmetic

    [required_xp * Config.XP_MULTIPLIER] multiplies an [int] by the float
    [1.5].  Python converts the [int] to the nearest binary64 float (ties to
    even; [OverflowError] when the result would be 2^1024 or more),
    multiplies with one more rounding, and [int(...)] truncates the product
    toward zero, raising [OverflowError] when the product is infinite.  The
    floats that occur are integers and halves of integers of magnitude at
    least 1/2 (or zero), so none is subnormal and rounding to binary64 is
    rounding to 53 significant bits. *)

(** A non-negative integer rounded to 53 significant bits: of the two
    neighbours with [k] trailing zero bits the nearer one, on a tie the one
    whose 53 leading bits are even. *)
Definition round_53_bits (n : Z) : Z :=
  let k := Z.log2 n - 52 in
  if k <=? 0 then n
  else
    let q := Z.shiftr n k in
    let down := Z.shiftl q k in
    let up := Z.shiftl (q + 1) k in
    if 2 * n <? down + up then down
    else if down + up <? 2 * n then up
    else if Z.even q then down else up.

Definition round_binary64 (n : Z) : Z := Z.sgn n * round_53_bits (Z.abs n).

(** [float(n)] for an [int]: [None] is [OverflowError]. *)
Definition float_of_int (n : Z) : option Z :=
  let f := round_binary64 n in
  if Z.abs f <? 2 ^ 1024 then Some f else None.

(** [int(required_xp * Config.XP_MULTIPLIER)] as the code computes it;
    [None] is [OverflowError].  The product [f * 1.5] is kept doubled,
    [3 * f]: rounding to 53 bits commutes with the halving, a product below
    2^52 is exact, and a finite product is below 2^1024. *)
Definition scale_required_xp_binary64 (required_xp : Z) : option Z :=
  match float_of_int required_xp with
  | None => None
  | Some f =>
      let twice_product := round_binary64 (XP_MULTIPLIER_num * f) in
      if Z.abs twice_product <? 2 ^ 1025
      then Some (Z.quot twice_product XP_MULTIPLIER_den)
      else None
  end.

(** [calculate_level] and [calculate_xp_for_level] with the scaling done in
    binary64: the loops of [level_loop] and [xp_for_loop], which raise
    [OverflowError] when the scaling does. *)
Fixpoint level_loop_binary64 (fuel : nat) (xp level required_xp : Z) : outcome Z :=
  match fuel with
  | O => OutOfFuel
  | S fuel' =>
      if xp >=? required_xp
      then match scale_required_xp_binary64 required_xp with
           | Some next =>
               level_loop_binary64 fuel' (xp - required_xp) (level + 1) next
           | None => Raises OverflowError
           end
      else Returns level
  end.

Definition calculate_level_binary64 (xp : Z) : outcome Z :=
  level_loop_binary64 (S (Z.to_nat xp)) xp 1 BASE_XP.

(** The variables [(total_xp, required_xp)] after [n] turns of the [for]
    loop. *)
Fixpoint xp_for_loop_binary64 (n : nat) (total_xp required_xp : Z) : outcome (Z * Z) :=
  match n with
  | O => Returns (total_xp, required_xp)
  | S n' =>
      match scale_required_xp_binary64 required_xp with
      | Some next => xp_for_loop_binary64 n' (total_xp + required_xp) next
      | None => Raises OverflowError
      end
  end.

Definition calculate_xp_for_level_binary64 (level : Z) : outcome Z :=
  match xp_for_loop_binary64 (Z.to_nat (level - 1)) 0 BASE_XP with
  | Returns (total_xp, _) => Returns total_xp
  | Raises e => Raises e
  | OutOfFuel => OutOfFuel
  end.

Definition M (A : Type) : Type := World -> outcome A * World.

Definition ret {A} (a : A) : M A := fun w => (Returns a, w).

Definition bind {A B} (m : M A) (k : A -> M B) : M B :=
  fun w =>
    match m w with
    | (Returns a, w') => k a w'
    | (Raises e, w') => (Raises e, w')
    | (OutOfFuel, w') => (OutOfFuel, w')
    end.

Definition raise {A} (e : exn) : M A := fun w => (Raises e, w).

(** [try: body  except Exception as e: handler]: writes made before the
    exception stay. *)
Definition try_except {A} (body : M A) (handler : exn -> M A) : M A :=
  fun w =>
    match body w with
    | (Raises e, w') => handler e w'
    | r => r
    end.

Definition get_world : M World := fun w => (Returns w, w).
Definition modify_world (f : World -> World) : M unit := fun w => (Returns tt, f w).

(** A Python operation that raises [e] where the model has [None]. *)
Definition or_raise {A} (e : exn) (o : option A) : M A :=
  match o with Some a => ret a | None => raise e end.

(** A call of a fuelled function. *)
Definition or_out_of_fuel {A} (o : option A) : M A :=
  match o with Some a => ret a | None => fun w => (OutOfFuel, w) end.

Declare Scope py_scope.
Delimit Scope py_scope with py.
Notation "'let*' x ':=' m 'in' k" := (bind m (fun x => k))
  (at level 10, x name, m at level 100, k at level 200, only parsing) : py_scope.
Notation "m ';;;' k" := (bind m (fun _ => k))
  (at level 100, k at level 200, right associativity, only parsing) : py_scope.

Local Open Scope py_scope.

(** ** Store and transport primitives

    The store is reliable: [execute()] never raises, so the
    [except Exception] arms of the database helpers are never entered by a
    store call. *)

(** [datetime.now()]. *)
Definition datetime_now : M datetime := fun w => (Returns (clock w), w).

(** [supabase.table('users').update(fields).eq('user_id', user_id).execute()]:
    the field writes [fields] applied to the row of [user_id], if there is
    one. *)
Definition users_update (user_id : Z) (fields : User -> User) : M unit :=
  modify_world (with_users (alter fields user_id)).

(** [update.message.reply_text(...)] and [query.edit_message_text(...)]. *)
Definition reply_text (r : Reply) : M unit :=
  modify_world (with_outbox (fun sent => sent ++ [r])).

Definition edit_message_text (r : Reply) : M unit :=
  modify_world (with_outbox (fun sent => sent ++ [r])).

(** ** Utility functions *)

Definition microseconds_per_day : Z := 86400 * 1000000.

(** [time_until_next_day()].  [tomorrow - now] is a normalised [timedelta];
    its [seconds] field is the whole seconds left after the whole days are
    taken out. *)
Definition time_until_next_day : M string :=
  let* now := datetime_now in
  let diff_microseconds :=
    microseconds_per_day
    - (((hour now * 60 + minute now) * 60 + second now) * 1000000 + microsecond now) in
  let diff_seconds := (diff_microseconds mod microseconds_per_day) / 1000000 in
  let hours := diff_seconds / 3600 in
  let minutes := (diff_seconds mod 3600) / 60 in
  ret (pretty hours +:+ "h " +:+ pretty minutes +:+ "m").

(** ** Database functions *)

(** [get_or_create_user(user_id, username=None, first_name=None)].  [None]
    is the result of its [except] arm, which the reliable store never
    reaches. *)
Definition new_user (user_id : Z) (username first_name : option string)
    (now : datetime) : User :=
  {| row_user_id := user_id; row_username := username;
     row_first_name := first_name; row_xp := 0; row_level := 1;
     row_coins := 100; row_rank := "Newbie"; row_last_daily := None;
     row_daily_streak := 0; row_total_messages := 0;
     row_join_date := now; row_last_active := now |}.

Definition get_or_create_user (user_id : Z) (username first_name : option string)
  : M (option User) :=
  let* w := get_world in
  match users w !! user_id with
  | Some row => ret (Some row)
  | None =>
      let* now := datetime_now in
      let new_user := new_user user_id username first_name now in
      modify_world (with_users <[user_id := new_user]>) ;;;
      ret (Some new_user)
  end.

(** [log_transaction] and [log_level_up]: one row appended. *)
Definition log_transaction (user_id : Z) (transaction_type : string) (amount : Z)
    (description : string) : M unit :=
  let* now := datetime_now in
  modify_world (with_transactions (fun log => log ++
    [ {| tx_user_id := user_id; tx_type := transaction_type; tx_amount := amount;
         tx_description := description; tx_timestamp := now |} ])).

Definition log_level_up (user_id old_level new_level : Z) : M unit :=
  let* now := datetime_now in
  modify_world (with_level_ups (fun log => log ++
    [ {| lu_user_id := user_id; lu_old_level := old_level;
         lu_new_level := new_level; lu_timestamp := now |} ])).

(** [update_user_xp(user_id, xp_gain, coins_gain)]: [true] when a level up
    occurred.  The new level is computed in exact arithmetic, which is the
    code's value while [3 * new_xp < 2^53]. *)
Definition update_user_xp (user_id xp_gain coins_gain : Z) : M bool :=
  try_except
    (let* user := get_or_create_user user_id None None in
     match user with
     | None => ret false
     | Some user =>
         let new_xp := row_xp user + xp_gain in
         let new_coins := row_coins user + coins_gain in
         let* new_level := or_out_of_fuel (calculate_level new_xp) in
         let* now := datetime_now in
         users_update user_id (fun row =>
           set_last_active now
             (set_total_messages (row_total_messages user + 1)
                (set_coins new_coins (set_level new_level (set_xp new_xp row))))) ;;;
         if new_level >? row_level user then
           log_level_up user_id (row_level user) new_level ;;;
           ret true
         else ret false
     end)
    (fun _ => ret false).

(** The dicts [check_daily_reward] returns:
    [{"can_claim": True, "streak": s}] and
    [{"can_claim": False, "reason": r}] with an optional ["time_left"]. *)
Inductive DailyCheck :=
| CanClaim (streak : Z)
| CannotClaim (reason : string) (time_left : option string).

Definition can_claim (d : DailyCheck) : bool :=
  match d with CanClaim _ => true | CannotClaim _ _ => false end.

Definition time_left (d : DailyCheck) : option string :=
  match d with CanClaim _ => None | CannotClaim _ t => t end.

Definition streak (d : DailyCheck) : option Z :=
  match d with CanClaim s => Some s | CannotClaim _ _ => None end.

(** Reading a local variable: [None] is a local that has no value yet. *)
Definition load_local {A} (slot : option A) : M A := or_raise UnboundLocalError slot.

(** [row.id] on what [get_or_create_user] returns (a dict or [None]):
    neither has such an attribute. *)
Definition getattr_id (row : option User) : M Z := raise AttributeError.

(** Lines 249-275 of [check_daily_reward]: what follows the assignment of
    [user]. *)
Definition check_daily_reward_decide (user : option User) : M DailyCheck :=
  match user with
  | None => ret (CannotClaim "User not found" None)
  | Some user =>
      match row_last_daily user with
      | None => ret (CanClaim 0)
      | Some last_daily =>
          let last_daily_date := date last_daily in
          let* now := datetime_now in
          let today := date now in
          if last_daily_date =? today then
            let* remaining := time_until_next_day in
            ret (CannotClaim "Already claimed today" (Some remaining))
          else
            let yesterday := today - 1 in
            let streak := row_daily_streak user in
            let streak := if last_daily_date =? yesterday then streak + 1 else 1 in
            ret (CanClaim streak)
      end
  end.

(** [check_daily_reward(user_id)].  The function assigns [user], so [user]
    is one of its locals, and its first statement
    [user = await get_or_create_user(user.id)] reads that local for the
    argument before anything has been assigned to it. *)
Definition check_daily_reward (user_id : Z) : M DailyCheck :=
  let user : option (option User) := None in
  try_except
    (let* user_value := load_local user in
     let* arg := getattr_id user_value in
     let* user := get_or_create_user arg None None in
     check_daily_reward_decide user)
    (fun _ => ret (CannotClaim "Database error" None)).

(** ** Command handlers *)

(** [streak_bonus = min(streak * 10, 200)] and the two totals of
    [daily_command]. *)
Definition streak_bonus (streak : Z) : Z := Z.min (streak * 10) 200.

Definition daily_reward (streak : Z) : Z * Z :=
  let base_coins := DAILY_REWARD_COINS in
  let base_xp := DAILY_REWARD_XP in
  let total_coins := base_coins + (base_coins * streak_bonus streak / 100) in
  let total_xp := base_xp + (base_xp * streak_bonus streak / 100) in
  (total_coins, total_xp).

(** The [try] block of [daily_command]: the grant for a claimable check.
    As in [update_user_xp], the new level is computed in exact arithmetic,
    the code's value while [3 * new_xp < 2^53]. *)
Definition daily_grant (user : TelegramUser) (streak : Z) : M unit :=
  let '(total_coins, total_xp) := daily_reward streak in
  try_except
    (let* user_data := get_or_create_user (tg_id user) None None in
     let* user_data := or_raise TypeError user_data in
     let new_coins := row_coins user_data + total_coins in
     let new_xp := row_xp user_data + total_xp in
     let* new_level := or_out_of_fuel (calculate_level new_xp) in
     let* now := datetime_now in
     users_update (tg_id user) (fun row =>
       set_daily_streak streak
         (set_last_daily (Some now)
            (set_level new_level (set_xp new_xp (set_coins new_coins row))))) ;;;
     log_transaction (tg_id user) "daily_reward" total_coins
       ("Daily reward (streak: " +:+ pretty streak +:+ ")") ;;;
     reply_text (DailyRewardText total_coins total_xp streak (streak_bonus streak)
                   (if new_level >? row_level user_data then Some new_level else None)))
    (fun _ => reply_text DailyFailedText).

(** [daily_command]. *)
Definition daily_command (user : TelegramUser) : M unit :=
  let* daily_check := check_daily_reward (tg_id user) in
  match daily_check with
  | CannotClaim _ (Some remaining) => reply_text (AlreadyClaimedText remaining)
  | CannotClaim reason None => reply_text (DailyErrorText reason)
  | CanClaim streak => daily_grant user streak
  end.

(** The keyboard [shop_command] builds: the callback data of its buttons.
    An item button carries the item's position in [SHOP_ITEMS], a rank
    button the lower-cased rank. *)
Definition shop_item_buttons (coins : Z) : list string :=
  omap (fun '(item_name, item_data) =>
          if coins >=? price item_data then
            (fun i => "buy_" +:+ pretty i) <$> list_index (keys SHOP_ITEMS) item_name
          else None)
       SHOP_ITEMS.

Definition shop_rank_buttons (rank : string) (coins : Z) : list string :=
  omap (fun '(rank', rank_price) =>
          if negb (String.eqb rank rank') && (coins >=? rank_price) then
            Some ("upgrade_" +:+ lower rank')
          else None)
       RANK_PRICES.

Definition shop_command (user : TelegramUser) : M unit :=
  let* user_data := get_or_create_user (tg_id user) None None in
  match user_data with
  | None => reply_text ShopFailedText
  | Some user_data =>
      reply_text (ShopText (row_coins user_data)
        (shop_item_buttons (row_coins user_data)
         ++ shop_rank_buttons (row_rank user_data) (row_coins user_data)
         ++ ["start"]))
  end.

(** [handle_message]: the reward for a message. *)
Definition handle_message (user : TelegramUser) (chat : Chat) : M unit :=
  if negb (String.eqb (chat_type chat) "group" || String.eqb (chat_type chat) "supergroup")
  then ret tt
  else if is_bot user then ret tt
  else
    let* level_up := update_user_xp (tg_id user) XP_PER_MESSAGE COINS_PER_MESSAGE in
    if level_up then
      let* user_data := get_or_create_user (tg_id user) None None in
      match user_data with
      | Some user_data =>
          users_update (tg_id user) (set_coins (row_coins user_data + 50)) ;;;
          reply_text (LevelUpText (row_level user_data) (row_xp user_data)
                        (row_coins user_data))
      | None => ret tt
      end
    else ret tt.

(** ** Shop and rank resolver *)

(** [handle_shop_purchase(update, context, callback_data)], with
    [user = query.from_user]. *)
Definition handle_shop_purchase (user : TelegramUser) (callback_data : string) : M unit :=
  try_except
    (let* index_text := or_raise IndexError (list_getitem (split "_" callback_data) 1) in
     let* item_index := or_raise ValueError (int_of_str index_text) in
     let* item_name := or_raise IndexError (list_getitem (keys SHOP_ITEMS) item_index) in
     let* item_data := or_raise KeyError (dict_getitem SHOP_ITEMS item_name) in
     let* user_data := get_or_create_user (tg_id user) None None in
     let* user_data := or_raise TypeError user_data in
     if row_coins user_data <? price item_data then
       edit_message_text
         (ItemInsufficientFundsText item_name (price item_data) (row_coins user_data))
     else
       let new_coins := row_coins user_data - price item_data in
       users_update (tg_id user) (set_coins new_coins) ;;;
       log_transaction (tg_id user) "purchase" (- price item_data)
         ("Bought " +:+ item_name) ;;;
       edit_message_text (PurchaseSuccessText item_name (price item_data) new_coins))
    (fun _ => edit_message_text PurchaseFailedText).

(** [handle_rank_upgrade(update, context, callback_data)]. *)
Definition handle_rank_upgrade (user : TelegramUser) (callback_data : string) : M unit :=
  try_except
    (let* rank_text := or_raise IndexError (list_getitem (split "_" callback_data) 1) in
     let rank := upper rank_text in
     let* rank_price := or_raise KeyError (dict_getitem RANK_PRICES rank) in
     let* user_data := get_or_create_user (tg_id user) None None in
     let* user_data := or_raise TypeError user_data in
     if row_coins user_data <? rank_price then
       edit_message_text
         (RankInsufficientFundsText rank rank_price (row_coins user_data))
     else
       let new_coins := row_coins user_data - rank_price in
       users_update (tg_id user) (fun row => set_rank rank (set_coins new_coins row)) ;;;
       log_transaction (tg_id user) "rank_upgrade" (- rank_price)
         ("Upgraded to " +:+ rank) ;;;
       edit_message_text (RankUpgradeSuccessText rank rank_price new_coins))
    (fun _ => edit_message_text RankUpgradeFailedText).

(** ** Profile *)

(** The numbers [profile_command] derives from the stored row before it
    formats them: [(xp_needed, xp_progress, xp_required_for_level)].  The
    two calls of [calculate_xp_for_level] are outside any [try]. *)
Definition profile_progress (user_data : User) : outcome (Z * Z * Z) :=
  let current_level := row_level user_data in
  let current_xp := row_xp user_data in
  match calculate_xp_for_level_binary64 current_level with
  | Returns xp_for_current_level =>
      match calculate_xp_for_level_binary64 (current_level + 1) with
      | Returns xp_for_next_level =>
          let xp_needed := xp_for_next_level - current_xp in
          let xp_progress := current_xp - xp_for_current_level in
          let xp_required_for_level := xp_for_next_level - xp_for_current_level in
          Returns (xp_needed, xp_progress, xp_required_for_level)
      | Raises e => Raises e
      | OutOfFuel => OutOfFuel
      end
  | Raises e => Raises e
  | OutOfFuel => OutOfFuel
  end.

(** ** Later events *)


(** ** Example inputs *)

Definition noon (day : Z) : datetime :=
  {| ordinal := day; hour := 12; minute := 0; second := 0; microsecond := 0 |}.

(** The day of the example events. *)
Definition example_day : Z := 739000.

(** A stored user (id 7) with the given balance and daily-reward state. *)
Definition example_row (coins : Z) (last_daily : option datetime) (daily_streak : Z)
  : User :=
  {| row_user_id := 7; row_username := Some "alice"; row_first_name := Some "Alice";
     row_xp := 248; row_level := 2; row_coins := coins; row_rank := "Newbie";
     row_last_daily := last_daily; row_daily_streak := daily_streak;
     row_total_messages := 52; row_join_date := noon (example_day - 30);
     row_last_active := noon (example_day - 1) |}.

Definition example_world (row : User) : World :=
  {| users := {[ row_user_id row := row ]}; transactions := []; level_ups := [];
     clock := noon example_day; outbox := [] |}.

Definition example_user : TelegramUser :=
  {| tg_id := 7; tg_username := Some "alice"; tg_first_name := Some "Alice";
     is_bot := false |}.

Definition example_group : Chat := {| chat_type := "supergroup" |}.

(** A sender who has no row yet. *)
Definition example_newcomer : TelegramUser :=
  {| tg_id := 8; tg_username := None; tg_first_name := Some "Bob"; is_bot := false |}.

(** ** Level calculator: properties *)

Lemma base_xp_pos : 0 < BASE_XP.
Proof. unfold BASE_XP. lia. Qed.

(** *** Exact arithmetic *)

Lemma scale_required_xp_ge (r : Z) : 0 < r -> r <= scale_required_xp r.
Proof.
  intros Hr. unfold scale_required_xp, XP_MULTIPLIER_num, XP_MULTIPLIER_den.
  rewrite Z.quot_div_nonneg by lia.
  apply Z.div_le_lower_bound; lia.
Qed.

Lemma scale_required_xp_pos (r : Z) : 0 < r -> 0 < scale_required_xp r.
Proof. intros Hr. pose proof (scale_required_xp_ge r Hr). lia. Qed.

Lemma xp_for_loop_shift (n : nat) (t r : Z) :
  xp_for_loop n t r = t + xp_for_loop n 0 r.
Proof.
  revert t r. induction n as [|n IH]; intros t r; simpl.
  - lia.
  - rewrite (IH (t + r)), (IH (0 + r)). lia.
Qed.

Lemma xp_for_loop_S (n : nat) (r : Z) :
  xp_for_loop (S n) 0 r = r + xp_for_loop n 0 (scale_required_xp r).
Proof. simpl. rewrite xp_for_loop_shift. lia. Qed.

(** The loop invariant of [calculate_level]: started with a positive
    requirement and enough fuel, the loop stops after some [n] turns, and [n]
    is the number of thresholds that fit into [xp]. *)
Lemma level_loop_spec (fuel : nat) :
  forall xp level r,
    0 < r -> 0 <= xp -> (Z.to_nat xp < fuel)%nat ->
    exists n : nat,
      level_loop fuel xp level r = Some (level + Z.of_nat n) /\
      xp_for_loop n 0 r <= xp < xp_for_loop (S n) 0 r.
Proof.
  induction fuel as [|fuel IH]; intros xp level r Hr Hxp Hfuel; [lia|].
  simpl level_loop. destruct (Z.geb_spec xp r) as [Hge|Hlt].
  - destruct (IH (xp - r) (level + 1) (scale_required_xp r)) as (n & Hrun & Hlo & Hhi).
    + now apply scale_required_xp_pos.
    + lia.
    + lia.
    + exists (S n). split.
      * rewrite Hrun. f_equal. lia.
      * rewrite (xp_for_loop_S (S n)), (xp_for_loop_S n). lia.
  - exists O. split.
    + f_equal. simpl. lia.
    + simpl. lia.
Qed.

Lemma calculate_level_spec (xp : Z) :
  0 <= xp ->
  exists n : nat,
    calculate_level xp = Some (1 + Z.of_nat n) /\
    xp_for_loop n 0 BASE_XP <= xp < xp_for_loop (S n) 0 BASE_XP.
Proof.
  intros Hxp. unfold calculate_level.
  apply level_loop_spec; unfold BASE_XP; lia.
Qed.

(** [calculate_level] returns on every integer input. *)
Lemma calculate_level_total (xp : Z) : exists level, calculate_level xp = Some level.
Proof.
  destruct (Z.le_gt_cases 0 xp) as [H|H].
  - destruct (calculate_level_spec xp H) as (n & Hn & _). eauto.
  - exists 1. unfold calculate_level.
    replace (Z.to_nat xp) with O by lia. simpl.
    destruct (Z.geb_spec xp BASE_XP) as [Hge|_]; [unfold BASE_XP in Hge; lia|reflexivity].
Qed.

(** The first thresholds: 100, then 150 more, then 225 more, then 337 more
    (the truncated 337.5). *)
Example calculate_xp_for_level_first :
  map calculate_xp_for_level [1; 2; 3; 4; 5] = [0; 100; 250; 475; 812].
Proof. reflexivity. Qed.

Example calculate_level_first :
  map calculate_level [0; 99; 100; 249; 250; 474; 475; 811; 812]
  = map Some [1; 1; 2; 2; 3; 3; 4; 4; 5].
Proof. vm_compute. reflexivity. Qed.

(** *** Binary64 arithmetic *)

Lemma round_53_bits_small (n : Z) : 0 <= n < 2 ^ 53 -> round_53_bits n = n.
Proof.
  intros [H0 H]. unfold round_53_bits.
  assert (Z.log2 n <= 52).
  { destruct (Z.eq_dec n 0) as [->|Hn]; [simpl; lia|].
    assert (Z.log2 n < 53) by (apply Z.log2_lt_pow2; lia). lia. }
  destruct (Z.leb_spec (Z.log2 n - 52) 0); [reflexivity|lia].
Qed.

(** Rounding keeps a positive integer within a sixteenth of itself (the
    rounding unit is at most one part in 2^52 of it). *)
Lemma round_53_bits_near (n : Z) :
  0 < n -> 15 * n <= 16 * round_53_bits n <= 17 * n.
Proof.
  intros Hn. unfold round_53_bits.
  destruct (Z.leb_spec (Z.log2 n - 52) 0) as [_|Hk]; [lia|].
  set (k := Z.log2 n - 52) in *. cbv zeta.
  rewrite Z.shiftr_div_pow2, !Z.shiftl_mul_pow2 by lia.
  assert (Hunit : 0 < 2 ^ k) by (apply Z.pow_pos_nonneg; lia).
  pose proof (Z.div_mod n (2 ^ k) ltac:(lia)) as Hdiv.
  pose proof (Z.mod_pos_bound n (2 ^ k) Hunit) as Hrest.
  assert (Hq : 2 ^ 52 <= n / 2 ^ k).
  { apply Z.div_le_lower_bound; [exact Hunit|].
    rewrite <- Z.pow_add_r by lia.
    replace (k + 52) with (Z.log2 n) by (unfold k; lia).
    apply Z.log2_spec. exact Hn. }
  set (unit := 2 ^ k) in *. set (q := n / unit) in *. set (rest := n mod unit) in *.
  assert (Hq' : 16 <= q) by lia.
  destruct (2 * n <? q * unit + (q + 1) * unit); [nia|].
  destruct (q * unit + (q + 1) * unit <? 2 * n); [nia|].
  destruct (Z.even q); nia.
Qed.

Lemma round_binary64_small (n : Z) : 0 <= n < 2 ^ 53 -> round_binary64 n = n.
Proof.
  intros H. unfold round_binary64. rewrite Z.abs_eq by lia.
  rewrite round_53_bits_small by exact H.
  destruct (Z.eq_dec n 0) as [->|Hn]; [reflexivity|].
  rewrite Z.sgn_pos by lia. lia.
Qed.

Lemma round_binary64_near (n : Z) :
  0 < n -> 15 * n <= 16 * round_binary64 n <= 17 * n.
Proof.
  intros H. unfold round_binary64. rewrite Z.abs_eq, Z.sgn_pos by lia.
  pose proof (round_53_bits_near n H). lia.
Qed.

(** While the doubled product stays below 2^53 the binary64 scaling is the
    exact one. *)
Lemma scale_required_xp_binary64_exact (r : Z) :
  0 <= r -> 3 * r < 2 ^ 53 ->
  scale_required_xp_binary64 r = Some (scale_required_xp r).
Proof.
  intros H0 H. unfold scale_required_xp_binary64, float_of_int, scale_required_xp,
    XP_MULTIPLIER_num, XP_MULTIPLIER_den.
  rewrite (round_binary64_small r) by lia.
  destruct (Z.ltb_spec (Z.abs r) (2 ^ 1024)) as [_|Hbig]; [|lia].
  rewrite (round_binary64_small (3 * r)) by lia.
  destruct (Z.ltb_spec (Z.abs (3 * r)) (2 ^ 1025)) as [_|Hbig]; [|lia].
  do 2 f_equal. lia.
Qed.

(** The binary64 scaling never lowers a positive requirement. *)
Lemma scale_required_xp_binary64_ge (r next : Z) :
  0 < r -> scale_required_xp_binary64 r = Some next -> r <= next.
Proof.
  intros Hr. unfold scale_required_xp_binary64, float_of_int,
    XP_MULTIPLIER_num, XP_MULTIPLIER_den.
  pose proof (round_binary64_near r Hr) as Hf.
  destruct (Z.abs (round_binary64 r) <? 2 ^ 1024); [|discriminate].
  pose proof (round_binary64_near (3 * round_binary64 r) ltac:(lia)) as Hp.
  cbv zeta.
  destruct (Z.abs (round_binary64 (3 * round_binary64 r)) <? 2 ^ 1025); [|discriminate].
  intros [= <-]. rewrite Z.quot_div_nonneg by lia.
  apply Z.div_le_lower_bound; lia.
Qed.

Lemma xp_for_loop_binary64_shift (n : nat) (t r : Z) :
  xp_for_loop_binary64 n t r =
    match xp_for_loop_binary64 n 0 r with
    | Returns (a, rn) => Returns (t + a, rn)
    | Raises e => Raises e
    | OutOfFuel => OutOfFuel
    end.
Proof.
  revert t r. induction n as [|n IH]; intros t r; simpl.
  - do 2 f_equal. lia.
  - destruct (scale_required_xp_binary64 r) as [next|]; [|reflexivity].
    rewrite (IH (t + r)), (IH (0 + r)).
    destruct (xp_for_loop_binary64 n 0 next) as [[a rn]| |]; try reflexivity.
    do 2 f_equal. lia.
Qed.

(** One more turn of the loop, seen from its end. *)
Lemma xp_for_loop_binary64_last (n : nat) (t r : Z) :
  xp_for_loop_binary64 (S n) t r =
    match xp_for_loop_binary64 n t r with
    | Returns (a, rn) =>
        match scale_required_xp_binary64 rn with
        | Some next => Returns (a + rn, next)
        | None => Raises OverflowError
        end
    | Raises e => Raises e
    | OutOfFuel => OutOfFuel
    end.
Proof.
  revert t r. induction n as [|n IH]; intros t r.
  - reflexivity.
  - change (xp_for_loop_binary64 (S (S n)) t r) with
      (match scale_required_xp_binary64 r with
       | Some next => xp_for_loop_binary64 (S n) (t + r) next
       | None => Raises OverflowError
       end).
    change (xp_for_loop_binary64 (S n) t r) with
      (match scale_required_xp_binary64 r with
       | Some next => xp_for_loop_binary64 n (t + r) next
       | None => Raises OverflowError
       end).
    destruct (scale_required_xp_binary64 r) as [next|]; [apply IH|reflexivity].
Qed.

Lemma xp_for_loop_binary64_grows (n : nat) :
  forall t r a rn,
    0 < r -> xp_for_loop_binary64 n t r = Returns (a, rn) ->
    r <= rn /\ t + Z.of_nat n * r <= a.
Proof.
  induction n as [|n IH]; intros t r a rn Hr Hrun; simpl in Hrun.
  - injection Hrun as <- <-. lia.
  - destruct (scale_required_xp_binary64 r) as [next|] eqn:Hnext; [|discriminate].
    pose proof (scale_required_xp_binary64_ge r next Hr Hnext) as Hge.
    assert (Hnext_pos : 0 < next) by lia.
    destruct (IH _ _ _ _ Hnext_pos Hrun) as [Hrn Ha].
    split; [lia|]. rewrite Nat2Z.inj_succ.
    assert (0 <= Z.of_nat n) by lia. nia.
Qed.

(** If the loop gets through [m] turns it gets through any fewer. *)
Lemma xp_for_loop_binary64_prefix (n m : nat) (t r : Z) :
  (n <= m)%nat ->
  (exists c, xp_for_loop_binary64 m t r = Returns c) ->
  exists a rn, xp_for_loop_binary64 n t r = Returns (a, rn).
Proof.
  intros Hnm. induction Hnm as [|m Hnm IH]; intros [c Hrun].
  - destruct c as [a rn]. eauto.
  - apply IH. rewrite xp_for_loop_binary64_last in Hrun.
    destruct (xp_for_loop_binary64 m t r) as [c'| |]; [eauto|discriminate..].
Qed.

(** The totals grow by the requirement of each further turn. *)
Lemma xp_for_loop_binary64_lt (n m : nat) (r a rn b rm : Z) :
  0 < r -> (n < m)%nat ->
  xp_for_loop_binary64 n 0 r = Returns (a, rn) ->
  xp_for_loop_binary64 m 0 r = Returns (b, rm) ->
  a + rn <= b.
Proof.
  intros Hr Hnm Hn. revert b rm. induction Hnm as [|m Hnm IH]; intros b rm Hm.
  - rewrite xp_for_loop_binary64_last, Hn in Hm.
    destruct (scale_required_xp_binary64 rn); [|discriminate].
    injection Hm as <- <-. lia.
  - rewrite xp_for_loop_binary64_last in Hm.
    destruct (xp_for_loop_binary64 m 0 r) as [[b' rm']| |] eqn:Hm'; try discriminate.
    destruct (scale_required_xp_binary64 rm'); [|discriminate].
    injection Hm as <- <-.
    pose proof (IH _ _ eq_refl).
    destruct (xp_for_loop_binary64_grows _ _ _ _ _ Hr Hm'). lia.
Qed.

(** The loop invariant of [calculate_level] in binary64: with a positive
    requirement and enough fuel the loop either stops after [n] turns, where
    the totals of [n] and [n + 1] turns bracket the xp, or raises at the
    scaling of turn [n + 1]. *)
Lemma level_loop_binary64_spec (fuel : nat) :
  forall xp level r,
    0 < r -> 0 <= xp -> (Z.to_nat xp < fuel)%nat ->
    exists (n : nat) a rn,
      xp_for_loop_binary64 n 0 r = Returns (a, rn) /\ a <= xp /\
      ((xp < a + rn /\
        level_loop_binary64 fuel xp level r = Returns (level + Z.of_nat n)) \/
       (a + rn <= xp /\ scale_required_xp_binary64 rn = None /\
        level_loop_binary64 fuel xp level r = Raises OverflowError)).
Proof.
  induction fuel as [|fuel IH]; intros xp level r Hr Hxp Hfuel; [lia|].
  simpl level_loop_binary64. destruct (Z.geb_spec xp r) as [Hge|Hlt].
  - destruct (scale_required_xp_binary64 r) as [next|] eqn:Hnext.
    + pose proof (scale_required_xp_binary64_ge r next Hr Hnext) as Hnext_ge.
      destruct (IH (xp - r) (level + 1) next) as (n & a & rn & Hrun & Hlo & Hcases);
        [lia..|].
      exists (S n), (r + a), rn. split.
      { simpl. rewrite Hnext, xp_for_loop_binary64_shift, Hrun. reflexivity. }
      split; [lia|].
      destruct Hcases as [[Hhi Hret]|(Hhi & Hnone & Hraise)].
      * left. split; [lia|]. rewrite Hret. f_equal. lia.
      * right. split; [lia|]. split; [exact Hnone|exact Hraise].
    + exists O, 0, r. split; [reflexivity|]. split; [lia|].
      right. split; [lia|]. split; [exact Hnext|reflexivity].
  - exists O, 0, r. split; [reflexivity|]. split; [lia|].
    left. split; [lia|]. f_equal. simpl. lia.
Qed.

(** Conversely, an xp bracketed by the totals of [n] and [n + 1] turns makes
    the loop return after [n] turns. *)
Lemma level_loop_binary64_returns (n : nat) :
  forall fuel xp level r a rn,
    0 < r -> xp_for_loop_binary64 n 0 r = Returns (a, rn) ->
    a <= xp < a + rn -> (Z.to_nat xp < fuel)%nat ->
    level_loop_binary64 fuel xp level r = Returns (level + Z.of_nat n).
Proof.
  induction n as [|n IH]; intros fuel xp level r a rn Hr Hrun Hxp Hfuel;
    (destruct fuel as [|fuel]; [lia|]); simpl in Hrun |- *.
  - injection Hrun as <- <-.
    destruct (Z.geb_spec xp r) as [Hge|_]; [lia|]. f_equal. lia.
  - destruct (scale_required_xp_binary64 r) as [next|] eqn:Hnext; [|discriminate].
    pose proof (scale_required_xp_binary64_ge r next Hr Hnext) as Hnext_ge.
    rewrite xp_for_loop_binary64_shift in Hrun.
    destruct (xp_for_loop_binary64 n 0 next) as [[a' rn']| |] eqn:Htail;
      try discriminate.
    injection Hrun as <- <-.
    assert (Hnext_pos : 0 < next) by lia.
    destruct (xp_for_loop_binary64_grows _ _ _ _ _ Hnext_pos Htail) as [_ Ha'].
    destruct (Z.geb_spec xp r) as [_|Hlt]; [|nia].
    rewrite (IH fuel (xp - r) (level + 1) next a' rn');
      [f_equal; lia|lia|exact Htail|lia|lia].
Qed.

(** The requirement can be scaled 1739 times from [BASE_XP] and no more;
    the total of the 1739 requirements before the last is above 2^1024. *)
Lemma xp_for_loop_binary64_limit :
  exists a rn,
    xp_for_loop_binary64 1739 0 BASE_XP = Returns (a, rn) /\
    scale_required_xp_binary64 rn = None /\
    2 ^ 1024 <= a /\ a + rn <= 10 ^ 400.
Proof.
  assert (Hcheck :
    match xp_for_loop_binary64 1739 0 BASE_XP with
    | Returns (a, rn) =>
        match scale_required_xp_binary64 rn with
        | None => (2 ^ 1024 <=? a) && (a + rn <=? 10 ^ 400)
        | Some _ => false
        end
    | _ => false
    end = true) by (vm_compute; reflexivity).
  destruct (xp_for_loop_binary64 1739 0 BASE_XP) as [[a rn]| |]; try discriminate.
  destruct (scale_required_xp_binary64 rn) eqn:Hnone; [discriminate|].
  apply andb_true_iff in Hcheck as [Ha Hb].
  exists a, rn. split; [reflexivity|]. split; [exact Hnone|].
  split; [apply Z.leb_le, Ha|apply Z.leb_le, Hb].
Qed.

(** Up to 1739 turns the [for] loop returns. *)
Lemma xp_for_loop_binary64_returns (n : nat) :
  (n <= 1739)%nat ->
  exists a rn, xp_for_loop_binary64 n 0 BASE_XP = Returns (a, rn).
Proof.
  intros Hn. destruct xp_for_loop_binary64_limit as (a & rn & Hrun & _).
  apply (xp_for_loop_binary64_prefix n 1739); [exact Hn|].
  exists (a, rn). exact Hrun.
Qed.

(** From 1739 turns on the total is at least that of 1739 turns. *)
Lemma xp_for_loop_binary64_top (n : nat) (a rn top rtop : Z) :
  xp_for_loop_binary64 1739 0 BASE_XP = Returns (top, rtop) ->
  xp_for_loop_binary64 n 0 BASE_XP = Returns (a, rn) ->
  (1739 <= n)%nat ->
  top <= a.
Proof.
  intros Htop Hrun Hn.
  destruct (Nat.eq_dec n 1739%nat) as [->|Hne].
  - rewrite Hrun in Htop. injection Htop as -> ->. lia.
  - assert (Hlt : (1739 < n)%nat) by lia.
    pose proof (xp_for_loop_binary64_lt 1739 n BASE_XP top rtop a rn base_xp_pos
                  Hlt Htop Hrun).
    destruct (xp_for_loop_binary64_grows _ _ _ _ _ base_xp_pos Htop) as [Hrtop _].
    unfold BASE_XP in Hrtop. lia.
Qed.

(** A turn count whose requirement cannot be scaled is 1739 at least. *)
Lemma xp_for_loop_binary64_overflow (n : nat) (a rn top rtop : Z) :
  xp_for_loop_binary64 1739 0 BASE_XP = Returns (top, rtop) ->
  xp_for_loop_binary64 n 0 BASE_XP = Returns (a, rn) ->
  scale_required_xp_binary64 rn = None ->
  top <= a.
Proof.
  intros Htop Hrun Hnone.
  destruct (Nat.lt_ge_cases n 1739) as [Hlt|Hge].
  - destruct (xp_for_loop_binary64_prefix (S n) 1739 0 BASE_XP Hlt) as (b & rb & Hb);
      [exists (top, rtop); exact Htop|].
    rewrite xp_for_loop_binary64_last, Hrun, Hnone in Hb. discriminate.
  - exact (xp_for_loop_binary64_top n a rn top rtop Htop Hrun Hge).
Qed.

(** What [calculate_level] computes for a non-negative xp below [top], the
    total of the 1739 requirements before the last one. *)
Lemma calculate_level_binary64_below (xp top rtop : Z) :
  xp_for_loop_binary64 1739 0 BASE_XP = Returns (top, rtop) ->
  0 <= xp < top ->
  exists (n : nat) a rn next,
    (n < 1739)%nat /\
    calculate_level_binary64 xp = Returns (1 + Z.of_nat n) /\
    xp_for_loop_binary64 n 0 BASE_XP = Returns (a, rn) /\
    xp_for_loop_binary64 (S n) 0 BASE_XP = Returns (a + rn, next) /\
    a <= xp < a + rn.
Proof.
  intros Htop [Hxp Hbound]. unfold calculate_level_binary64.
  destruct (level_loop_binary64_spec (S (Z.to_nat xp)) xp 1 BASE_XP base_xp_pos Hxp)
    as (n & a & rn & Hrun & Hlo & [[Hhi Hret]|(Hhi & Hnone & _)]); [lia| |].
  - destruct (scale_required_xp_binary64 rn) as [next|] eqn:Hnext.
    + exists n, a, rn, next.
      assert (Hlast : xp_for_loop_binary64 (S n) 0 BASE_XP = Returns (a + rn, next))
        by (rewrite xp_for_loop_binary64_last, Hrun, Hnext; reflexivity).
      split; [|repeat split; assumption].
      destruct (Nat.lt_ge_cases n 1739) as [Hlt|Hge]; [exact Hlt|].
      pose proof (xp_for_loop_binary64_top n a rn top rtop Htop Hrun Hge). lia.
    + pose proof (xp_for_loop_binary64_overflow n a rn top rtop Htop Hrun Hnext). lia.
  - pose proof (xp_for_loop_binary64_overflow n a rn top rtop Htop Hrun Hnone). lia.
Qed.

(** In particular for a non-negative xp below 2^1024. *)
Lemma calculate_level_binary64_spec (xp : Z) :
  0 <= xp < 2 ^ 1024 ->
  exists (n : nat) a rn next,
    (n < 1739)%nat /\
    calculate_level_binary64 xp = Returns (1 + Z.of_nat n) /\
    xp_for_loop_binary64 n 0 BASE_XP = Returns (a, rn) /\
    xp_for_loop_binary64 (S n) 0 BASE_XP = Returns (a + rn, next) /\
    a <= xp < a + rn.
Proof.
  intros Hxp.
  destruct xp_for_loop_binary64_limit as (top & rtop & Htop & _ & Hbig & _).
  apply (calculate_level_binary64_below xp top rtop Htop). lia.
Qed.

Lemma calculate_level_binary64_negative (xp : Z) :
  xp < 0 -> calculate_level_binary64 xp = Returns 1.
Proof.
  intros Hneg. unfold calculate_level_binary64.
  replace (Z.to_nat xp) with O by lia. simpl.
  destruct (Z.geb_spec xp BASE_XP) as [Hge|_]; [unfold BASE_XP in Hge; lia|reflexivity].
Qed.

Lemma calculate_xp_for_level_binary64_of_nat (n : nat) :
  calculate_xp_for_level_binary64 (1 + Z.of_nat n) =
    match xp_for_loop_binary64 n 0 BASE_XP with
    | Returns (total_xp, _) => Returns total_xp
    | Raises e => Raises e
    | OutOfFuel => OutOfFuel
    end.
Proof.
  unfold calculate_xp_for_level_binary64.
  replace (Z.to_nat (1 + Z.of_nat n - 1)) with n by lia. reflexivity.
Qed.

(** While three times the xp stays below 2^53, the exact model and the
    binary64 model of [calculate_level] agree. *)
Lemma level_loop_binary64_exact (fuel : nat) :
  forall xp level r,
    0 <= r -> 3 * xp < 2 ^ 53 ->
    level_loop_binary64 fuel xp level r =
      match level_loop fuel xp level r with
      | Some l => Returns l
      | None => OutOfFuel
      end.
Proof.
  induction fuel as [|fuel IH]; intros xp level r Hr Hxp; [reflexivity|].
  simpl. destruct (Z.geb_spec xp r) as [Hge|_]; [|reflexivity].
  rewrite scale_required_xp_binary64_exact by lia.
  apply IH; [|lia].
  unfold scale_required_xp, XP_MULTIPLIER_num, XP_MULTIPLIER_den.
  apply Z.quot_pos; lia.
Qed.

Lemma calculate_level_binary64_exact (xp : Z) :
  3 * xp < 2 ^ 53 ->
  calculate_level_binary64 xp =
    match calculate_level xp with
    | Some l => Returns l
    | None => OutOfFuel
    end.
Proof.
  intros Hxp. apply level_loop_binary64_exact; [unfold BASE_XP; lia|exact Hxp].
Qed.

Lemma calculate_level_binary64_small (xp level : Z) :
  3 * xp < 2 ^ 53 ->
  calculate_level_binary64 xp = Returns level <-> calculate_level xp = Some level.
Proof.
  intros Hxp. rewrite (calculate_level_binary64_exact xp Hxp).
  destruct (calculate_level xp); split; congruence.
Qed.

(** From 10^400 xp on [calculate_level] raises: the requirement of level
    1741 cannot be computed. *)
Lemma calculate_level_binary64_raises (xp : Z) :
  10 ^ 400 <= xp -> calculate_level_binary64 xp = Raises OverflowError.
Proof.
  intros Hxp. unfold calculate_level_binary64.
  destruct xp_for_loop_binary64_limit as (a' & rn' & Hrun' & Hnone' & Ha' & Hb').
  assert (Hnonneg : 0 <= xp) by lia.
  destruct (level_loop_binary64_spec (S (Z.to_nat xp)) xp 1 BASE_XP base_xp_pos Hnonneg)
    as (n & a & rn & Hrun & Hlo & [[Hhi Hret]|(_ & _ & Hraise)]);
    [apply Nat.lt_succ_diag_r| |exact Hraise].
  exfalso.
  destruct (Nat.lt_ge_cases n 1739) as [Hlt|Hge].
  - pose proof (xp_for_loop_binary64_lt n 1739 BASE_XP a rn a' rn' base_xp_pos
                  Hlt Hrun Hrun').
    destruct (xp_for_loop_binary64_grows _ _ _ _ _ base_xp_pos Hrun') as [Hrn' _].
    unfold BASE_XP in Hrn'. lia.
  - destruct (Nat.eq_dec n 1739%nat) as [->|Hne].
    + rewrite Hrun in Hrun'. injection Hrun' as -> ->. lia.
    + destruct (xp_for_loop_binary64_prefix 1740 n 0 BASE_XP ltac:(lia)) as (b & rb & Hb);
        [exists (a, rn); exact Hrun|].
      rewrite xp_for_loop_binary64_last, Hrun', Hnone' in Hb. discriminate.
Qed.

Lemma calculate_level_binary64_zero : calculate_level_binary64 0 = Returns 1.
Proof. reflexivity. Qed.

(** The first thresholds, and the first level at which the rounding of the
    product shows: the code's threshold of level 83 ends in 821, the exact
    sum in 819. *)
Example calculate_xp_for_level_binary64_first :
  map calculate_xp_for_level_binary64 [1; 2; 3; 4; 5; 83] =
  map Returns [0; 100; 250; 475; 812; 54787833284357821].
Proof. vm_compute. reflexivity. Qed.

Example calculate_xp_for_level_83 :
  calculate_xp_for_level 83 = 54787833284357819.
Proof. vm_compute. reflexivity. Qed.

(** The first requirement that the rounding changes is the 81st: the
    product [12175074063190660 * 1.5] needs 54 bits. *)
Example scale_required_xp_binary64_81 :
  scale_required_xp_binary64 12175074063190660 = Some 18262611094785992 /\
  scale_required_xp 12175074063190660 = 18262611094785990.
Proof. split; vm_compute; reflexivity. Qed.

Example calculate_level_binary64_82 :
  calculate_level_binary64 54787833284357819 = Returns 82.
Proof.
  unfold calculate_level_binary64.
  assert (Hrun : xp_for_loop_binary64 81 0 BASE_XP
                 = Returns (36525222189571829, 18262611094785992))
    by (vm_compute; reflexivity).
  apply (level_loop_binary64_returns 81 _ _ 1 _ _ _ base_xp_pos Hrun); lia.
Qed.

(** Where the consistency of the two functions ends:
    [calculate_xp_for_level 1741] raises [OverflowError], so no level is
    read back from its result, and [calculate_level] raises at 10^400 xp,
    so no threshold brackets that xp. *)
Lemma level_functions_inconsistent_at_1741 :
  1 <= 1741 /\ 0 <= 10 ^ 400 /\
  calculate_xp_for_level_binary64 1741 = Raises OverflowError /\
  ~ (exists total,
       calculate_xp_for_level_binary64 1741 = Returns total /\
       calculate_level_binary64 total = Returns 1741) /\
  calculate_level_binary64 (10 ^ 400) = Raises OverflowError.
Proof.
  assert (Hraise : calculate_xp_for_level_binary64 1741 = Raises OverflowError)
    by (vm_compute; reflexivity).
  split; [lia|]. split; [apply Z.pow_nonneg; lia|]. split; [exact Hraise|]. split.
  - intros (total & Hreturn & _). rewrite Hraise in Hreturn. discriminate.
  - apply calculate_level_binary64_raises. apply Z.le_refl.
Qed.

(** The threshold of level 1740, the last one the code can compute, is the
    total after 1739 turns of the [for] loop; it is above 2^1024. *)
Lemma calculate_xp_for_level_binary64_1740 (top : Z) :
  calculate_xp_for_level_binary64 1740 = Returns top <->
  exists rtop, xp_for_loop_binary64 1739 0 BASE_XP = Returns (top, rtop).
Proof.
  change 1740 with (1 + Z.of_nat 1739).
  rewrite calculate_xp_for_level_binary64_of_nat.
  destruct (xp_for_loop_binary64 1739 0 BASE_XP) as [[a rn]| |]; split.
  - intros [= ->]. exists rn. reflexivity.
  - intros (rtop & [= -> _]). reflexivity.
  - discriminate.
  - intros (rtop & Habs). discriminate.
  - discriminate.
  - intros (rtop & Habs). discriminate.
Qed.

Lemma calculate_xp_for_level_binary64_1740_returns :
  exists top,
    calculate_xp_for_level_binary64 1740 = Returns top /\ 2 ^ 1024 <= top.
Proof.
  destruct xp_for_loop_binary64_limit as (top & rtop & Htop & _ & Hbig & _).
  exists top. split; [|exact Hbig].
  apply calculate_xp_for_level_binary64_1740. exists rtop. exact Htop.
Qed.

(** C1, amended.  For every xp from 0 to below the threshold of level
    1740, [calculate_level] returns a level [lv] and the thresholds of [lv]
    and [lv + 1] bracket the xp; for every level from 1 to 1740,
    [calculate_level] of the threshold of the level returns the level. *)
Theorem level_functions_consistent (xp L top : Z) :
  calculate_xp_for_level_binary64 1740 = Returns top ->
  0 <= xp < top -> 1 <= L <= 1740 ->
  (exists lv lo hi,
     calculate_level_binary64 xp = Returns lv /\
     calculate_xp_for_level_binary64 lv = Returns lo /\
     calculate_xp_for_level_binary64 (lv + 1) = Returns hi /\
     lo <= xp < hi) /\
  (exists total,
     calculate_xp_for_level_binary64 L = Returns total /\
     calculate_level_binary64 total = Returns L).
Proof.
  intros Htop Hxp HL. split.
  - apply calculate_xp_for_level_binary64_1740 in Htop as (rtop & Htop).
    destruct (calculate_level_binary64_below xp top rtop Htop Hxp)
      as (n & a & rn & next & _ & Hret & Hrun & Hlast & Hbracket).
    exists (1 + Z.of_nat n), a, (a + rn). split; [exact Hret|].
    replace (1 + Z.of_nat n + 1) with (1 + Z.of_nat (S n)) by lia.
    rewrite !calculate_xp_for_level_binary64_of_nat, Hrun, Hlast. auto.
  - replace L with (1 + Z.of_nat (Z.to_nat (L - 1))) by lia.
    set (k := Z.to_nat (L - 1)).
    destruct (xp_for_loop_binary64_returns k ltac:(lia)) as (a & rn & Hrun).
    exists a. rewrite calculate_xp_for_level_binary64_of_nat, Hrun.
    split; [reflexivity|].
    destruct (xp_for_loop_binary64_grows _ _ _ _ _ base_xp_pos Hrun) as [Hrn Ha].
    unfold BASE_XP in Hrn.
    apply (level_loop_binary64_returns k _ _ 1 _ a rn base_xp_pos Hrun); lia.
Qed.

Lemma level_functions_consistent_witness :
  exists top,
    calculate_xp_for_level_binary64 1740 = Returns top /\
    0 <= 260 < top /\ 1 <= 3 <= 1740 /\
    ((exists lv lo hi,
        calculate_level_binary64 260 = Returns lv /\
        calculate_xp_for_level_binary64 lv = Returns lo /\
        calculate_xp_for_level_binary64 (lv + 1) = Returns hi /\
        lo <= 260 < hi) /\
     (exists total,
        calculate_xp_for_level_binary64 3 = Returns total /\
        calculate_level_binary64 total = Returns 3)).
Proof.
  destruct calculate_xp_for_level_binary64_1740_returns as (top & Htop & Hbig).
  assert (Hxp : 0 <= 260 < top) by lia.
  assert (HL : 1 <= 3 <= 1740) by lia.
  exists top. split; [exact Htop|]. split; [exact Hxp|]. split; [exact HL|].
  exact (level_functions_consistent 260 3 top Htop Hxp HL).
Defined.

(** A level that [calculate_level] returns for a non-negative xp counts the
    turns whose totals bracket the xp. *)
Lemma calculate_level_binary64_inv (xp level : Z) :
  0 <= xp -> calculate_level_binary64 xp = Returns level ->
  exists (n : nat) a rn,
    level = 1 + Z.of_nat n /\
    xp_for_loop_binary64 n 0 BASE_XP = Returns (a, rn) /\
    a <= xp < a + rn.
Proof.
  intros Hxp Hret. unfold calculate_level_binary64 in Hret.
  destruct (level_loop_binary64_spec (S (Z.to_nat xp)) xp 1 BASE_XP base_xp_pos Hxp)
    as (n & a & rn & Hrun & Hlo & [[Hhi Hret']|(_ & _ & Hraise)]);
    [apply Nat.lt_succ_diag_r| |congruence].
  exists n, a, rn. split; [congruence|]. split; [exact Hrun|lia].
Qed.

(** Monotonicity on all integers: where [calculate_level] returns for an
    xp it returns for every smaller one, with a level that is not higher. *)
Lemma calculate_level_binary64_mono (a b lb : Z) :
  a <= b -> calculate_level_binary64 b = Returns lb ->
  exists la, calculate_level_binary64 a = Returns la /\ la <= lb.
Proof.
  intros Hab Hlb.
  assert (Hlb1 : 1 <= lb).
  { destruct (Z.lt_ge_cases b 0) as [Hnegb|Hb0].
    - rewrite (calculate_level_binary64_negative b Hnegb) in Hlb. injection Hlb as <-. lia.
    - destruct (calculate_level_binary64_inv b lb Hb0 Hlb) as (n & _ & _ & -> & _). lia. }
  destruct (Z.lt_ge_cases a 0) as [Hneg|Ha].
  { exists 1. split; [apply calculate_level_binary64_negative; exact Hneg|exact Hlb1]. }
  destruct (calculate_level_binary64_inv b lb ltac:(lia) Hlb)
    as (nb & xb & rb & -> & Hrunb & Hbrb).
  unfold calculate_level_binary64.
  destruct (level_loop_binary64_spec (S (Z.to_nat a)) a 1 BASE_XP base_xp_pos Ha)
    as (na & xa & ra & Hruna & Hlo & Hcases); [apply Nat.lt_succ_diag_r|].
  assert (Hle : (na <= nb)%nat).
  { destruct (Nat.lt_ge_cases nb na) as [Hlt|Hge]; [|exact Hge].
    pose proof (xp_for_loop_binary64_lt nb na BASE_XP xb rb xa ra base_xp_pos
                  Hlt Hrunb Hruna). lia. }
  destruct Hcases as [[Hhi Hret]|(Hhi & Hnone & _)].
  - exists (1 + Z.of_nat na). split; [exact Hret|lia].
  - exfalso. destruct (Nat.eq_dec na nb) as [->|Hne].
    + rewrite Hruna in Hrunb. injection Hrunb as <- <-. lia.
    + destruct (xp_for_loop_binary64_prefix (S na) nb 0 BASE_XP ltac:(lia))
        as (c & rc & Hc); [exists (xb, rb); exact Hrunb|].
      rewrite xp_for_loop_binary64_last, Hruna, Hnone in Hc. discriminate.
Qed.

Lemma calculate_level_binary64_le (a b la lb : Z) :
  a <= b ->
  calculate_level_binary64 a = Returns la ->
  calculate_level_binary64 b = Returns lb ->
  la <= lb.
Proof.
  intros Hab Hla Hlb.
  destruct (calculate_level_binary64_mono a b lb Hab Hlb) as (la' & Hla' & Hle).
  congruence.
Qed.

(** Where the monotonicity ends: at 10^400 xp [calculate_level] raises
    [OverflowError], so there is no level to compare with that of 0 xp. *)
Lemma calculate_level_not_monotone_at_overflow :
  0 <= 0 /\ 0 <= 10 ^ 400 /\
  calculate_level_binary64 0 = Returns 1 /\
  calculate_level_binary64 (10 ^ 400) = Raises OverflowError /\
  ~ (exists la lb,
       calculate_level_binary64 0 = Returns la /\
       calculate_level_binary64 (10 ^ 400) = Returns lb /\ la <= lb).
Proof.
  assert (Hraise : calculate_level_binary64 (10 ^ 400) = Raises OverflowError)
    by (apply calculate_level_binary64_raises, Z.le_refl).
  split; [lia|]. split; [apply Z.pow_nonneg; lia|]. split; [reflexivity|].
  split; [exact Hraise|].
  intros (la & lb & _ & Hreturn & _). rewrite Hraise in Hreturn. discriminate.
Qed.

(** C9, amended.  [calculate_level 0] is 1, and wherever [calculate_level]
    returns it is monotonically non-decreasing: for [0 <= a <= b], when the
    call on [b] returns, the call on [a] returns too, with a level that is
    at most the level of [b]; and the call returns on every xp below
    2^1024. *)
Theorem calculate_level_monotone (a b lb : Z) :
  0 <= a -> a <= b ->
  calculate_level_binary64 b = Returns lb ->
  calculate_level_binary64 0 = Returns 1 /\
  (exists la, calculate_level_binary64 a = Returns la /\ la <= lb) /\
  (forall xp, xp < 2 ^ 1024 -> exists level, calculate_level_binary64 xp = Returns level).
Proof.
  intros Ha Hab Hlb. split; [reflexivity|]. split.
  - exact (calculate_level_binary64_mono a b lb Hab Hlb).
  - intros xp Hxp. destruct (Z.lt_ge_cases xp 0) as [Hneg|Hnonneg].
    + exists 1. apply calculate_level_binary64_negative. exact Hneg.
    + destruct (calculate_level_binary64_spec xp ltac:(lia))
        as (n & _ & _ & _ & _ & Hret & _).
      eauto.
Qed.

Lemma calculate_level_monotone_witness :
  0 <= 99 /\ 99 <= 100 /\
  calculate_level_binary64 100 = Returns 2 /\
  (calculate_level_binary64 0 = Returns 1 /\
   (exists la, calculate_level_binary64 99 = Returns la /\ la <= 2) /\
   (forall xp, xp < 2 ^ 1024 ->
      exists level, calculate_level_binary64 xp = Returns level)).
Proof.
  assert (Ha : 0 <= 99) by lia.
  assert (Hab : 99 <= 100) by lia.
  assert (Hlb : calculate_level_binary64 100 = Returns 2) by reflexivity.
  split; [exact Ha|]. split; [exact Hab|]. split; [exact Hlb|].
  exact (calculate_level_monotone 99 100 2 Ha Hab Hlb).
Defined.

(** ** Store lemmas *)

Lemma alter_existing (f : User -> User) (m : gmap Z User) (i : Z) (u : User) :
  m !! i = Some u -> alter f i m = <[i := f u]> m.
Proof.
  intros Hrow. apply map_eq. intros j. destruct (decide (i = j)) as [->|Hne].
  - rewrite lookup_alter_eq, lookup_insert_eq, Hrow. reflexivity.
  - rewrite lookup_alter_ne, lookup_insert_ne by assumption. reflexivity.
Qed.

Lemma get_or_create_user_existing (w : World) (user_id : Z)
    (username first_name : option string) (u : User) :
  users w !! user_id = Some u ->
  get_or_create_user user_id username first_name w = (Returns (Some u), w).
Proof.
  intros Hrow. unfold get_or_create_user, bind, get_world. rewrite Hrow. reflexivity.
Qed.

Lemma get_or_create_user_new (w : World) (user_id : Z)
    (username first_name : option string) :
  users w !! user_id = None ->
  get_or_create_user user_id username first_name w =
    (Returns (Some (new_user user_id username first_name (clock w))),
     with_users <[user_id := new_user user_id username first_name (clock w)]> w).
Proof.
  intros Hnew. unfold get_or_create_user, bind, get_world. rewrite Hnew. reflexivity.
Qed.

(** Unfolds the store and transport primitives down to the record fields. *)
Ltac run_writes :=
  cbv [datetime_now users_update log_transaction log_level_up reply_text
       edit_message_text modify_world with_outbox with_users with_transactions
       with_level_ups users transactions level_ups clock outbox].

(** ** Message reward *)

(** What [update_user_xp] does to a stored row. *)
Lemma update_user_xp_existing (w : World) (user_id xp_gain coins_gain : Z)
    (u : User) (new_level : Z) :
  users w !! user_id = Some u ->
  calculate_level (row_xp u + xp_gain) = Some new_level ->
  update_user_xp user_id xp_gain coins_gain w =
    let row' :=
      set_last_active (clock w)
        (set_total_messages (row_total_messages u + 1)
           (set_coins (row_coins u + coins_gain)
              (set_level new_level (set_xp (row_xp u + xp_gain) u)))) in
    let w' := with_users <[user_id := row']> w in
    if new_level >? row_level u
    then (Returns true,
          with_level_ups (fun log => log ++
            [ {| lu_user_id := user_id; lu_old_level := row_level u;
                 lu_new_level := new_level; lu_timestamp := clock w |} ]) w')
    else (Returns false, w').
Proof.
  intros Hrow Hlevel. unfold update_user_xp, try_except, bind.
  rewrite (get_or_create_user_existing _ _ _ _ _ Hrow).
  rewrite Hlevel. cbn [or_out_of_fuel ret datetime_now users_update modify_world].
  unfold with_users at 1. rewrite (alter_existing _ _ _ _ Hrow).
  destruct (new_level >? row_level u); reflexivity.
Qed.


Lemma update_user_xp_new (w : World) (user_id xp_gain coins_gain : Z) :
  users w !! user_id = None ->
  update_user_xp user_id xp_gain coins_gain w =
    update_user_xp user_id xp_gain coins_gain
      (with_users <[user_id := new_user user_id None None (clock w)]> w).
Proof.
  intros Hnew. unfold update_user_xp, try_except, bind.
  rewrite (get_or_create_user_new _ _ _ _ Hnew).
  erewrite get_or_create_user_existing by (cbn; apply lookup_insert_eq).
  reflexivity.
Qed.

(** X10. A first qualifying message: the row is created with the starting
    values (xp 0, level 1, 100 coins, no messages) and rewarded like a
    stored one, so it ends with [XP_PER_MESSAGE] xp, level 1,
    [100 + COINS_PER_MESSAGE] coins and one message; nothing is logged or
    sent. *)
Lemma handle_message_new_user (w : World) (user : TelegramUser) (chat : Chat) :
  chat_type chat = "group" \/ chat_type chat = "supergroup" ->
  is_bot user = false ->
  users w !! tg_id user = None ->
  handle_message user chat w =
    (Returns tt,
     with_users
       <[tg_id user :=
           set_last_active (clock w)
             (set_total_messages 1
                (set_coins (100 + COINS_PER_MESSAGE)
                   (set_level 1
                      (set_xp XP_PER_MESSAGE
                         (new_user (tg_id user) None None (clock w))))))]> w).
Proof.
  intros Hchat Hbot Hnew.
  assert (Hgroup : negb (String.eqb (chat_type chat) "group"
                         || String.eqb (chat_type chat) "supergroup") = false)
    by (destruct Hchat as [-> | ->]; reflexivity).
  unfold handle_message. rewrite Hgroup, Hbot. unfold bind at 1.
  rewrite (update_user_xp_new _ _ _ _ Hnew).
  erewrite update_user_xp_existing;
    [|cbn; apply lookup_insert_eq|reflexivity].
  cbn. unfold with_users. cbn. rewrite insert_insert_eq. reflexivity.
Qed.

(** X9. A message outside a group or supergroup chat, or from a bot,
    changes nothing: no row is read, created or written, nothing is logged
    or sent. *)
Lemma handle_message_not_qualifying (w : World) (user : TelegramUser) (chat : Chat) :
  (chat_type chat <> "group" /\ chat_type chat <> "supergroup") \/ is_bot user = true ->
  handle_message user chat w = (Returns tt, w).
Proof.
  intros Hskip. unfold handle_message.
  destruct (String.eqb_spec (chat_type chat) "group") as [Hg|Hg];
    destruct (String.eqb_spec (chat_type chat) "supergroup") as [Hs|Hs];
    destruct (is_bot user); cbn; try reflexivity;
    destruct Hskip as [[Hng Hns]|Hbot]; congruence.
Qed.



(** ** Daily reward *)

(** [check_daily_reward] never gets past its first statement: whatever the
    user id and the store, the read of the unassigned local raises, the
    [except] arm answers, and the store is not even read. *)
Lemma check_daily_reward_database_error (user_id : Z) (w : World) :
  check_daily_reward user_id w = (Returns (CannotClaim "Database error" None), w).
Proof. reflexivity. Qed.

(** X12. So [daily_command] always answers with the error text
    "Database error" and grants nothing: for every user and store, no row,
    no log and no streak changes. *)
Lemma daily_command_database_error (user : TelegramUser) (w : World) :
  daily_command user w =
    (Returns tt, with_outbox (fun sent => sent ++ [DailyErrorText "Database error"]) w).
Proof. reflexivity. Qed.

(** The decision that would follow the first statement is the one the
    specification describes. *)
Lemma check_daily_reward_decide_unset (u : User) (w : World) :
  row_last_daily u = None ->
  check_daily_reward_decide (Some u) w = (Returns (CanClaim 0), w).
Proof.
  intros Hunset. unfold check_daily_reward_decide. rewrite Hunset. reflexivity.
Qed.



(** C2. A stored user whose [last_daily] is unset: [check_daily_reward]
    answers not claimable, reason "Database error", and no streak, where the
    decision on this row would be claimable with streak 0. *)
Theorem check_daily_reward_unset_not_claimable :
  users (example_world (example_row 100 None 0)) !! 7 = Some (example_row 100 None 0) /\
  row_last_daily (example_row 100 None 0) = None /\
  check_daily_reward 7 (example_world (example_row 100 None 0)) =
    (Returns (CannotClaim "Database error" None),
     example_world (example_row 100 None 0)) /\
  check_daily_reward_decide (Some (example_row 100 None 0))
      (example_world (example_row 100 None 0)) =
    (Returns (CanClaim 0), example_world (example_row 100 None 0)).
Proof.
  split; [apply lookup_singleton_eq|]. repeat split.
Qed.

(** C3. A stored user whose [last_daily] is today: [check_daily_reward]
    answers not claimable, but with no [time_left]. *)
Theorem check_daily_reward_same_day_no_time_left :
  users (example_world (example_row 100 (Some (noon example_day)) 3)) !! 7
    = Some (example_row 100 (Some (noon example_day)) 3) /\
  date <$> row_last_daily (example_row 100 (Some (noon example_day)) 3)
    = Some (date (clock (example_world (example_row 100 (Some (noon example_day)) 3)))) /\
  exists d,
    check_daily_reward 7 (example_world (example_row 100 (Some (noon example_day)) 3))
      = (Returns d, example_world (example_row 100 (Some (noon example_day)) 3)) /\
    can_claim d = false /\ time_left d = None.
Proof.
  split; [apply lookup_singleton_eq|]. split; [reflexivity|].
  eexists. split; [reflexivity|]. split; reflexivity.
Qed.

(** C4. A stored user with streak 3 whose [last_daily] is yesterday, and one
    whose [last_daily] is five days back: [check_daily_reward] answers not
    claimable and reports no streak for either. *)
Theorem check_daily_reward_next_day_not_claimable :
  users (example_world (example_row 100 (Some (noon (example_day - 1))) 3)) !! 7
    = Some (example_row 100 (Some (noon (example_day - 1))) 3) /\
  date <$> row_last_daily (example_row 100 (Some (noon (example_day - 1))) 3)
    = Some (date (clock (example_world
                           (example_row 100 (Some (noon (example_day - 1))) 3))) - 1) /\
  (exists d,
     check_daily_reward 7 (example_world (example_row 100 (Some (noon (example_day - 1))) 3))
       = (Returns d, example_world (example_row 100 (Some (noon (example_day - 1))) 3)) /\
     can_claim d = false /\ streak d = None) /\
  users (example_world (example_row 100 (Some (noon (example_day - 5))) 3)) !! 7
    = Some (example_row 100 (Some (noon (example_day - 5))) 3) /\
  date <$> row_last_daily (example_row 100 (Some (noon (example_day - 5))) 3)
    = Some (date (clock (example_world
                           (example_row 100 (Some (noon (example_day - 5))) 3))) - 5) /\
  (exists d,
     check_daily_reward 7 (example_world (example_row 100 (Some (noon (example_day - 5))) 3))
       = (Returns d, example_world (example_row 100 (Some (noon (example_day - 5))) 3)) /\
     can_claim d = false /\ streak d = None).
Proof.
  split; [apply lookup_singleton_eq|]. split; [reflexivity|].
  split; [eexists; repeat split|].
  split; [apply lookup_singleton_eq|]. split; [reflexivity|].
  eexists; repeat split.
Qed.

(** What the grant of [daily_command] writes for a stored user. *)
Lemma daily_grant_existing (w : World) (user : TelegramUser) (streak : Z) (u : User)
    (new_level : Z) :
  users w !! tg_id user = Some u ->
  calculate_level (row_xp u + snd (daily_reward streak)) = Some new_level ->
  daily_grant user streak w =
    (Returns tt,
     {| users :=
          <[tg_id user :=
              set_daily_streak streak
                (set_last_daily (Some (clock w))
                   (set_level new_level
                      (set_xp (row_xp u + snd (daily_reward streak))
                         (set_coins (row_coins u + fst (daily_reward streak)) u))))]>
            (users w);
        transactions := transactions w ++
          [ {| tx_user_id := tg_id user; tx_type := "daily_reward";
               tx_amount := fst (daily_reward streak);
               tx_description := "Daily reward (streak: " +:+ pretty streak +:+ ")";
               tx_timestamp := clock w |} ];
        level_ups := level_ups w;
        clock := clock w;
        outbox := outbox w ++
          [ DailyRewardText (fst (daily_reward streak)) (snd (daily_reward streak))
              streak (streak_bonus streak)
              (if new_level >? row_level u then Some new_level else None) ] |}).
Proof.
  intros Hrow Hlevel. unfold daily_grant.
  destruct (daily_reward streak) as [total_coins total_xp] eqn:Hreward.
  cbn [fst snd] in *. unfold try_except, bind.
  rewrite (get_or_create_user_existing _ _ _ _ _ Hrow).
  cbn [or_raise ret]. rewrite Hlevel. cbv [or_out_of_fuel ret]. run_writes.
  rewrite (alter_existing _ _ _ _ Hrow). reflexivity.
Qed.



(** ** Shop and rank resolver *)

(** The callback data of the button of the [i]-th shop item resolves to that
    item. *)
Lemma shop_callback_resolves (i : nat) (item_name : string) (item_data : ShopItem) :
  SHOP_ITEMS !! i = Some (item_name, item_data) ->
  list_getitem (split "_" ("buy_" +:+ pretty (Z.of_nat i))) 1
    = Some (pretty (Z.of_nat i)) /\
  int_of_str (pretty (Z.of_nat i)) = Some (Z.of_nat i) /\
  list_getitem (keys SHOP_ITEMS) (Z.of_nat i) = Some item_name /\
  dict_getitem SHOP_ITEMS item_name = Some item_data.
Proof.
  intros Hitem.
  do 5 (destruct i as [|i];
        [injection Hitem as <- <-; repeat split; vm_compute; reflexivity|]).
  discriminate.
Qed.

(** These are the buttons [shop_command] builds for the items a user can
    afford. *)
Lemma shop_item_buttons_all (coins : Z) :
  3000 <= coins ->
  shop_item_buttons coins = ["buy_0"; "buy_1"; "buy_2"; "buy_3"; "buy_4"].
Proof.
  intros Hrich. unfold shop_item_buttons, SHOP_ITEMS. cbn [omap list_omap price].
  repeat match goal with
         | |- context [coins >=? ?p] =>
             destruct (Z.geb_spec coins p) as [_|Hpoor]; [|lia]
         end.
  reflexivity.
Qed.

(** [handle_shop_purchase] once the callback data has resolved to an item
    and the user is stored. *)
Lemma handle_shop_purchase_existing (w : World) (user : TelegramUser)
    (callback_data index_text : string) (item_index : Z)
    (item_name : string) (item_data : ShopItem) (u : User) :
  list_getitem (split "_" callback_data) 1 = Some index_text ->
  int_of_str index_text = Some item_index ->
  list_getitem (keys SHOP_ITEMS) item_index = Some item_name ->
  dict_getitem SHOP_ITEMS item_name = Some item_data ->
  users w !! tg_id user = Some u ->
  handle_shop_purchase user callback_data w =
    if row_coins u <? price item_data
    then (Returns tt,
          with_outbox (fun sent => sent ++
            [ ItemInsufficientFundsText item_name (price item_data) (row_coins u) ]) w)
    else (Returns tt,
          {| users :=
               <[tg_id user := set_coins (row_coins u - price item_data) u]> (users w);
             transactions := transactions w ++
               [ {| tx_user_id := tg_id user; tx_type := "purchase";
                    tx_amount := - price item_data;
                    tx_description := "Bought " +:+ item_name;
                    tx_timestamp := clock w |} ];
             level_ups := level_ups w;
             clock := clock w;
             outbox := outbox w ++
               [ PurchaseSuccessText item_name (price item_data)
                   (row_coins u - price item_data) ] |}).
Proof.
  intros Hsplit Hint Hname Hdata Hrow.
  unfold handle_shop_purchase, try_except, bind.
  rewrite Hsplit. cbn [or_raise ret]. rewrite Hint. cbn [or_raise ret].
  rewrite Hname. cbn [or_raise ret]. rewrite Hdata. cbn [or_raise ret].
  rewrite (get_or_create_user_existing _ _ _ _ _ Hrow). cbn [or_raise ret].
  destruct (row_coins u <? price item_data); [reflexivity|].
  run_writes. rewrite (alter_existing _ _ _ _ Hrow). reflexivity.
Qed.

(** A shop purchase the user cannot afford: the insufficient-funds text,
    and no write. *)
Lemma shop_purchase_insufficient_funds (w : World) (user : TelegramUser) (u : User)
    (i : nat) (item_name : string) (item_data : ShopItem) :
  users w !! tg_id user = Some u ->
  SHOP_ITEMS !! i = Some (item_name, item_data) ->
  row_coins u < price item_data ->
  handle_shop_purchase user ("buy_" +:+ pretty (Z.of_nat i)) w =
    (Returns tt,
     with_outbox (fun sent => sent ++
       [ ItemInsufficientFundsText item_name (price item_data) (row_coins u) ]) w).
Proof.
  intros Hrow Hitem Hshort.
  destruct (shop_callback_resolves i item_name item_data Hitem)
    as (Hsplit & Hint & Hname & Hdata).
  rewrite (handle_shop_purchase_existing _ _ _ _ _ _ _ _ Hsplit Hint Hname Hdata Hrow).
  destruct (Z.ltb_spec (row_coins u) (price item_data)) as [_|Hge]; [reflexivity|lia].
Qed.

(** C10. A shop purchase the stored user can afford leaves their row with
    coins lower by exactly the item's price and with xp, level, rank,
    [total_messages], [last_daily] and [daily_streak] as they were; no
    other row changes. *)
Theorem shop_purchase_writes_only_coins (w : World) (user : TelegramUser) (u : User)
    (i : nat) (item_name : string) (item_data : ShopItem) :
  users w !! tg_id user = Some u ->
  SHOP_ITEMS !! i = Some (item_name, item_data) ->
  price item_data <= row_coins u ->
  (exists u',
     users (snd (handle_shop_purchase user ("buy_" +:+ pretty (Z.of_nat i)) w))
       !! tg_id user = Some u' /\
     row_coins u' = row_coins u - price item_data /\
     row_xp u' = row_xp u /\
     row_level u' = row_level u /\
     row_rank u' = row_rank u /\
     row_total_messages u' = row_total_messages u /\
     row_last_daily u' = row_last_daily u /\
     row_daily_streak u' = row_daily_streak u) /\
  (forall other : Z,
     other <> tg_id user ->
     users (snd (handle_shop_purchase user ("buy_" +:+ pretty (Z.of_nat i)) w)) !! other
       = users w !! other).
Proof.
  intros Hrow Hitem Hafford.
  destruct (shop_callback_resolves i item_name item_data Hitem)
    as (Hsplit & Hint & Hname & Hdata).
  rewrite (handle_shop_purchase_existing _ _ _ _ _ _ _ _ Hsplit Hint Hname Hdata Hrow).
  destruct (Z.ltb_spec (row_coins u) (price item_data)) as [Hlt|_]; [lia|].
  cbn. split.
  - eexists. split; [apply lookup_insert_eq|]. cbn. repeat split.
  - intros other Hother. apply lookup_insert_ne. congruence.
Qed.

Lemma shop_purchase_writes_only_coins_witness :
  users (example_world (example_row 2500 None 0)) !! tg_id example_user
    = Some (example_row 2500 None 0) /\
  SHOP_ITEMS !! 2%nat
    = Some ("🌟 Custom Title", {| price := 2000; type := cosmetic; duration := None |}) /\
  2000 <= row_coins (example_row 2500 None 0) /\
  (exists u',
     users (snd (handle_shop_purchase example_user ("buy_" +:+ pretty (Z.of_nat 2))
                   (example_world (example_row 2500 None 0))))
       !! tg_id example_user = Some u' /\
     row_coins u' = row_coins (example_row 2500 None 0) - 2000 /\
     row_xp u' = row_xp (example_row 2500 None 0) /\
     row_level u' = row_level (example_row 2500 None 0) /\
     row_rank u' = row_rank (example_row 2500 None 0) /\
     row_total_messages u' = row_total_messages (example_row 2500 None 0) /\
     row_last_daily u' = row_last_daily (example_row 2500 None 0) /\
     row_daily_streak u' = row_daily_streak (example_row 2500 None 0)) /\
  (forall other : Z,
     other <> tg_id example_user ->
     users (snd (handle_shop_purchase example_user ("buy_" +:+ pretty (Z.of_nat 2))
                   (example_world (example_row 2500 None 0)))) !! other
       = users (example_world (example_row 2500 None 0)) !! other).
Proof.
  assert (Hrow : users (example_world (example_row 2500 None 0)) !! tg_id example_user
                 = Some (example_row 2500 None 0)) by apply lookup_singleton_eq.
  assert (Hafford : 2000 <= row_coins (example_row 2500 None 0)) by (cbn; lia).
  split; [exact Hrow|]. split; [reflexivity|]. split; [exact Hafford|].
  exact (shop_purchase_writes_only_coins (example_world (example_row 2500 None 0))
           example_user (example_row 2500 None 0) 2 "🌟 Custom Title"
           {| price := 2000; type := cosmetic; duration := None |}
           Hrow eq_refl Hafford).
Defined.

(** [handle_rank_upgrade] when the upper-cased rank is a key of
    [RANK_PRICES] and the user is stored. *)
Lemma handle_rank_upgrade_existing (w : World) (user : TelegramUser)
    (callback_data rank_text : string) (rank_price : Z) (u : User) :
  list_getitem (split "_" callback_data) 1 = Some rank_text ->
  dict_getitem RANK_PRICES (upper rank_text) = Some rank_price ->
  users w !! tg_id user = Some u ->
  handle_rank_upgrade user callback_data w =
    if row_coins u <? rank_price
    then (Returns tt,
          with_outbox (fun sent => sent ++
            [ RankInsufficientFundsText (upper rank_text) rank_price (row_coins u) ]) w)
    else (Returns tt,
          {| users :=
               <[tg_id user :=
                   set_rank (upper rank_text) (set_coins (row_coins u - rank_price) u)]>
                 (users w);
             transactions := transactions w ++
               [ {| tx_user_id := tg_id user; tx_type := "rank_upgrade";
                    tx_amount := - rank_price;
                    tx_description := "Upgraded to " +:+ upper rank_text;
                    tx_timestamp := clock w |} ];
             level_ups := level_ups w;
             clock := clock w;
             outbox := outbox w ++
               [ RankUpgradeSuccessText (upper rank_text) rank_price
                   (row_coins u - rank_price) ] |}).
Proof.
  intros Hsplit Hprice Hrow.
  unfold handle_rank_upgrade, try_except, bind.
  rewrite Hsplit. cbn [or_raise ret]. rewrite Hprice. cbn [or_raise ret].
  rewrite (get_or_create_user_existing _ _ _ _ _ Hrow). cbn [or_raise ret].
  destruct (row_coins u <? rank_price); [reflexivity|].
  run_writes. rewrite (alter_existing _ _ _ _ Hrow). reflexivity.
Qed.

(** [handle_rank_upgrade] when the upper-cased rank is not a key of
    [RANK_PRICES]: the [KeyError] is caught before the store is read, nothing
    is written, and the generic failure text is sent. *)
Lemma handle_rank_upgrade_key_error (w : World) (user : TelegramUser)
    (callback_data rank_text : string) :
  list_getitem (split "_" callback_data) 1 = Some rank_text ->
  dict_getitem RANK_PRICES (upper rank_text) = None ->
  handle_rank_upgrade user callback_data w =
    (Returns tt, with_outbox (fun sent => sent ++ [RankUpgradeFailedText]) w).
Proof.
  intros Hsplit Hprice. unfold handle_rank_upgrade, try_except, bind.
  rewrite Hsplit. cbn [or_raise ret]. rewrite Hprice. reflexivity.
Qed.



(** X25. The buttons [shop_command] builds for the ranks other than "VIP"
    ("Premium" and "Admin") carry callback data that [handle_rank_upgrade]
    cannot resolve: for every user and store the handler answers with the
    generic failure text and reads and writes nothing. *)
Lemma rank_button_key_error (w : World) (user : TelegramUser)
    (rank : string) (rank_price : Z) :
  In (rank, rank_price) RANK_PRICES -> rank <> "VIP" ->
  handle_rank_upgrade user ("upgrade_" +:+ lower rank) w =
    (Returns tt, with_outbox (fun sent => sent ++ [RankUpgradeFailedText]) w).
Proof.
  intros Hin Hrank.
  destruct Hin as [[= <- <-]|[[= <- <-]|[[= <- <-]|[]]]]; [contradiction| |];
    eapply handle_rank_upgrade_key_error; reflexivity.
Qed.

(** For "VIP" both arms of [handle_rank_upgrade] work as specified. *)
Lemma rank_upgrade_vip_insufficient_funds (w : World) (user : TelegramUser) (u : User) :
  users w !! tg_id user = Some u ->
  row_coins u < 5000 ->
  handle_rank_upgrade user "upgrade_vip" w =
    (Returns tt,
     with_outbox (fun sent => sent ++
       [ RankInsufficientFundsText "VIP" 5000 (row_coins u) ]) w).
Proof.
  intros Hrow Hshort.
  rewrite (handle_rank_upgrade_existing w user "upgrade_vip" "vip" 5000 u
             eq_refl eq_refl Hrow).
  destruct (Z.ltb_spec (row_coins u) 5000) as [_|Hge]; [reflexivity|lia].
Qed.

Lemma rank_upgrade_vip_success (w : World) (user : TelegramUser) (u : User) :
  users w !! tg_id user = Some u ->
  5000 <= row_coins u ->
  users (snd (handle_rank_upgrade user "upgrade_vip" w)) !! tg_id user =
    Some (set_rank "VIP" (set_coins (row_coins u - 5000) u)).
Proof.
  intros Hrow Hafford.
  rewrite (handle_rank_upgrade_existing w user "upgrade_vip" "vip" 5000 u
             eq_refl eq_refl Hrow).
  destruct (Z.ltb_spec (row_coins u) 5000) as [Hlt|_]; [lia|].
  cbn. apply lookup_insert_eq.
Qed.

(** C7. A stored user with 100 coins asks for the rank "Premium", priced
    15000, through the callback data the shop builds for it: the handler
    sends the generic failure text, not the insufficient-funds text (the
    store is left as it was). *)
Theorem rank_upgrade_premium_unaffordable_generic_failure :
  users (example_world (example_row 100 None 0)) !! tg_id example_user
    = Some (example_row 100 None 0) /\
  dict_getitem RANK_PRICES "Premium" = Some 15000 /\
  row_coins (example_row 100 None 0) < 15000 /\
  handle_rank_upgrade example_user ("upgrade_" +:+ lower "Premium")
      (example_world (example_row 100 None 0)) =
    (Returns tt,
     with_outbox (fun sent => sent ++ [RankUpgradeFailedText])
       (example_world (example_row 100 None 0))).
Proof.
  split; [apply lookup_singleton_eq|]. repeat split.
Qed.

(** C8. A stored user with 20000 coins is offered the button
    "upgrade_premium" by the shop and presses it: the handler sends the
    generic failure text, debits nothing, logs nothing and leaves the rank as
    it was. *)
Theorem rank_upgrade_premium_affordable_not_applied :
  dict_getitem RANK_PRICES "Premium" = Some 15000 /\
  15000 <= row_coins (example_row 20000 None 0) /\
  In "upgrade_premium"
     (shop_rank_buttons (row_rank (example_row 20000 None 0))
        (row_coins (example_row 20000 None 0))) /\
  users (example_world (example_row 20000 None 0)) !! tg_id example_user
    = Some (example_row 20000 None 0) /\
  users (snd (handle_rank_upgrade example_user "upgrade_premium"
                (example_world (example_row 20000 None 0)))) !! tg_id example_user
    = Some (example_row 20000 None 0) /\
  transactions (snd (handle_rank_upgrade example_user "upgrade_premium"
                       (example_world (example_row 20000 None 0)))) = [] /\
  outbox (snd (handle_rank_upgrade example_user "upgrade_premium"
                 (example_world (example_row 20000 None 0))))
    = [RankUpgradeFailedText].
Proof.
  split; [reflexivity|]. split; [vm_compute; discriminate|].
  split; [vm_compute; tauto|]. split; [apply lookup_singleton_eq|].
  split; [apply lookup_singleton_eq|]. split; reflexivity.
Qed.

(** ** Level calculator: further properties *)

(** X1. From level 1 to level 1740, the last whose threshold the code can
    compute, a higher level always needs strictly more total xp. *)
Theorem calculate_xp_for_level_strictly_increasing (L1 L2 : Z) :
  1 <= L1 -> L1 < L2 -> L2 <= 1740 ->
  exists total1 total2,
    calculate_xp_for_level_binary64 L1 = Returns total1 /\
    calculate_xp_for_level_binary64 L2 = Returns total2 /\
    total1 < total2.
Proof.
  intros H1 H12 H2.
  replace L1 with (1 + Z.of_nat (Z.to_nat (L1 - 1))) by lia.
  replace L2 with (1 + Z.of_nat (Z.to_nat (L2 - 1))) by lia.
  set (n := Z.to_nat (L1 - 1)). set (m := Z.to_nat (L2 - 1)).
  destruct (xp_for_loop_binary64_returns n ltac:(lia)) as (a & rn & Hn).
  destruct (xp_for_loop_binary64_returns m ltac:(lia)) as (b & rm & Hm).
  exists a, b. rewrite !calculate_xp_for_level_binary64_of_nat, Hn, Hm.
  split; [reflexivity|]. split; [reflexivity|].
  pose proof (xp_for_loop_binary64_lt n m BASE_XP a rn b rm base_xp_pos
                ltac:(lia) Hn Hm).
  destruct (xp_for_loop_binary64_grows _ _ _ _ _ base_xp_pos Hn) as [Hrn _].
  unfold BASE_XP in Hrn. lia.
Qed.

Lemma calculate_xp_for_level_strictly_increasing_witness :
  1 <= 2 /\ 2 < 4 /\ 4 <= 1740 /\
  exists total1 total2,
    calculate_xp_for_level_binary64 2 = Returns total1 /\
    calculate_xp_for_level_binary64 4 = Returns total2 /\
    total1 < total2.
Proof.
  split; [lia|]. split; [lia|]. split; [lia|].
  apply calculate_xp_for_level_strictly_increasing; lia.
Defined.

(** X2. Below 2^1024 xp, negative xp included, [calculate_level] returns a
    level of at least 1, at most one more than the number of whole
    [BASE_XP] in the xp, and at most 1739. *)
Theorem calculate_level_bounds (xp : Z) :
  xp < 2 ^ 1024 ->
  exists level,
    calculate_level_binary64 xp = Returns level /\
    1 <= level <= 1 + Z.max 0 xp / BASE_XP /\
    level <= 1739.
Proof.
  intros Hbound. destruct (Z.le_gt_cases 0 xp) as [Hxp|Hneg].
  - destruct (calculate_level_binary64_spec xp ltac:(lia))
      as (n & a & rn & next & Hn & Hret & Hrun & _ & Hlo & _).
    exists (1 + Z.of_nat n). split; [exact Hret|].
    destruct (xp_for_loop_binary64_grows _ _ _ _ _ base_xp_pos Hrun) as [_ Hlin].
    rewrite Z.max_r by lia. split; [|lia]. split; [lia|].
    assert (Z.of_nat n <= xp / BASE_XP); [|lia].
    apply Z.div_le_lower_bound; [exact base_xp_pos|lia].
  - exists 1. split; [apply calculate_level_binary64_negative; lia|].
    rewrite Z.max_l by lia. rewrite Z.div_0_l by (unfold BASE_XP; lia). lia.
Qed.

Lemma calculate_level_bounds_witness :
  260 < 2 ^ 1024 /\
  exists level,
    calculate_level_binary64 260 = Returns level /\
    1 <= level <= 1 + Z.max 0 260 / BASE_XP /\
    level <= 1739.
Proof.
  split; [lia|]. apply calculate_level_bounds. lia.
Defined.

(** X3. For non-negative xp and a level from 1 to 1739, [calculate_level]
    returns the level exactly when the thresholds of the level and of the
    next one bracket the xp. *)
Theorem calculate_level_characterised (xp L : Z) :
  0 <= xp -> 1 <= L <= 1739 ->
  (calculate_level_binary64 xp = Returns L <->
   exists lo hi,
     calculate_xp_for_level_binary64 L = Returns lo /\
     calculate_xp_for_level_binary64 (L + 1) = Returns hi /\
     lo <= xp < hi).
Proof.
  intros Hxp HL.
  set (k := Z.to_nat (L - 1)).
  assert (HLk : L = 1 + Z.of_nat k) by lia.
  assert (Hk : (S k <= 1739)%nat) by lia.
  clearbody k. subst L.
  replace (1 + Z.of_nat k + 1) with (1 + Z.of_nat (S k)) by lia.
  rewrite !calculate_xp_for_level_binary64_of_nat.
  destruct (xp_for_loop_binary64_returns (S k) Hk) as (b & next & Hlast).
  pose proof Hlast as Hlast'. rewrite xp_for_loop_binary64_last in Hlast'.
  destruct (xp_for_loop_binary64 k 0 BASE_XP) as [[a rk]| |] eqn:Hrun; try discriminate.
  destruct (scale_required_xp_binary64 rk) as [next'|] eqn:Hnext; [|discriminate].
  injection Hlast' as <- <-. rewrite Hlast.
  split.
  - intros Hret. exists a, (a + rk). split; [reflexivity|]. split; [reflexivity|].
    unfold calculate_level_binary64 in Hret.
    destruct (level_loop_binary64_spec (S (Z.to_nat xp)) xp 1 BASE_XP base_xp_pos Hxp)
      as (n & a' & rn & Hrun' & Hlo & [[Hhi Hret']|(_ & _ & Hraise)]);
      [apply Nat.lt_succ_diag_r| |congruence].
    rewrite Hret' in Hret. injection Hret as Hn.
    assert (n = k) as -> by lia.
    rewrite Hrun in Hrun'. injection Hrun' as <- <-. lia.
  - intros (lo & hi & [= <-] & [= <-] & Hbracket).
    apply (level_loop_binary64_returns k _ _ 1 _ a rk base_xp_pos Hrun); lia.
Qed.

Lemma calculate_level_characterised_witness :
  0 <= 260 /\ 1 <= 3 <= 1739 /\
  (calculate_level_binary64 260 = Returns 3 <->
   exists lo hi,
     calculate_xp_for_level_binary64 3 = Returns lo /\
     calculate_xp_for_level_binary64 (3 + 1) = Returns hi /\
     lo <= 260 < hi).
Proof.
  split; [lia|]. split; [lia|]. apply calculate_level_characterised; lia.
Defined.

(** X4. The cost of the first level up is [BASE_XP]; up to level 1740 the
    cost of each later one is [int(1.5 * the cost before)] as the code
    computes it, and it never gets cheaper. *)
Theorem level_cost_progression (L : Z) :
  1 <= L <= 1738 ->
  exists total0 total1 total2,
    calculate_xp_for_level_binary64 1 = Returns 0 /\
    calculate_xp_for_level_binary64 2 = Returns BASE_XP /\
    calculate_xp_for_level_binary64 L = Returns total0 /\
    calculate_xp_for_level_binary64 (L + 1) = Returns total1 /\
    calculate_xp_for_level_binary64 (L + 2) = Returns total2 /\
    scale_required_xp_binary64 (total1 - total0) = Some (total2 - total1) /\
    0 < total1 - total0 <= total2 - total1.
Proof.
  intros HL.
  set (k := Z.to_nat (L - 1)).
  assert (HLk : L = 1 + Z.of_nat k) by lia.
  assert (Hk : (S (S k) <= 1739)%nat) by lia.
  clearbody k. subst L.
  replace (1 + Z.of_nat k + 2) with (1 + Z.of_nat (S (S k))) by lia.
  replace (1 + Z.of_nat k + 1) with (1 + Z.of_nat (S k)) by lia.
  rewrite !calculate_xp_for_level_binary64_of_nat.
  destruct (xp_for_loop_binary64_returns (S (S k)) Hk) as (c & r2 & H2).
  pose proof H2 as H2'. rewrite xp_for_loop_binary64_last in H2'.
  destruct (xp_for_loop_binary64 (S k) 0 BASE_XP) as [[b r1]| |] eqn:H1; try discriminate.
  destruct (scale_required_xp_binary64 r1) as [next2|] eqn:Hnext1; [|discriminate].
  injection H2' as <- <-.
  pose proof H1 as H1'. rewrite xp_for_loop_binary64_last in H1'.
  destruct (xp_for_loop_binary64 k 0 BASE_XP) as [[a r0]| |] eqn:H0; try discriminate.
  destruct (scale_required_xp_binary64 r0) as [next1|] eqn:Hnext0; [|discriminate].
  injection H1' as <- <-.
  destruct (xp_for_loop_binary64_grows _ _ _ _ _ base_xp_pos H0) as [Hr0 _].
  unfold BASE_XP in Hr0.
  exists a, (a + r0), (a + r0 + next1). rewrite H2.
  split; [reflexivity|]. split; [reflexivity|]. split; [reflexivity|].
  split; [reflexivity|]. split; [reflexivity|].
  replace (a + r0 - a) with r0 by lia.
  replace (a + r0 + next1 - (a + r0)) with next1 by lia.
  split; [exact Hnext0|].
  pose proof (scale_required_xp_binary64_ge r0 next1 ltac:(lia) Hnext0). lia.
Qed.

Lemma level_cost_progression_witness :
  1 <= 81 <= 1738 /\
  exists total0 total1 total2,
    calculate_xp_for_level_binary64 1 = Returns 0 /\
    calculate_xp_for_level_binary64 2 = Returns BASE_XP /\
    calculate_xp_for_level_binary64 81 = Returns total0 /\
    calculate_xp_for_level_binary64 (81 + 1) = Returns total1 /\
    calculate_xp_for_level_binary64 (81 + 2) = Returns total2 /\
    scale_required_xp_binary64 (total1 - total0) = Some (total2 - total1) /\
    0 < total1 - total0 <= total2 - total1.
Proof.
  split; [lia|]. apply level_cost_progression. lia.
Defined.

(** X5. For a row with xp from 0 to below 2^1024 whose level is the level
    of its xp, [profile_command] gets its numbers without an exception and
    they are in range: the progress lies in [0, required), the xp still
    needed is positive, and the two add up to the cost of the level. *)
Theorem profile_progress_in_range (u : User) :
  0 <= row_xp u < 2 ^ 1024 ->
  calculate_level_binary64 (row_xp u) = Returns (row_level u) ->
  exists xp_needed xp_progress xp_required_for_level,
    profile_progress u = Returns (xp_needed, xp_progress, xp_required_for_level) /\
    0 <= xp_progress < xp_required_for_level /\
    0 < xp_needed <= xp_required_for_level /\
    xp_progress + xp_needed = xp_required_for_level.
Proof.
  intros Hxp Hinv. unfold profile_progress.
  destruct (calculate_level_binary64_spec (row_xp u) Hxp)
    as (n & a & rn & next & _ & Hret & Hrun & Hlast & Hbracket).
  rewrite Hret in Hinv. injection Hinv as Hlevel. rewrite <- Hlevel.
  replace (1 + Z.of_nat n + 1) with (1 + Z.of_nat (S n)) by lia.
  rewrite !calculate_xp_for_level_binary64_of_nat, Hrun, Hlast.
  eexists _, _, _. split; [reflexivity|]. lia.
Qed.

Lemma profile_progress_in_range_witness :
  0 <= row_xp (example_row 100 None 0) < 2 ^ 1024 /\
  calculate_level_binary64 (row_xp (example_row 100 None 0))
    = Returns (row_level (example_row 100 None 0)) /\
  exists xp_needed xp_progress xp_required_for_level,
    profile_progress (example_row 100 None 0)
      = Returns (xp_needed, xp_progress, xp_required_for_level) /\
    0 <= xp_progress < xp_required_for_level /\
    0 < xp_needed <= xp_required_for_level /\
    xp_progress + xp_needed = xp_required_for_level.
Proof.
  assert (Hxp : 0 <= row_xp (example_row 100 None 0) < 2 ^ 1024) by (cbn; lia).
  split; [exact Hxp|]. split; [reflexivity|].
  exact (profile_progress_in_range (example_row 100 None 0) Hxp eq_refl).
Defined.

(** ** Store and message reward: further properties *)

(** X6. [get_or_create_user] always returns a row, which is the stored one
    or else a fresh one with the starting values; afterwards that row is
    stored under the id, no other row and no log has changed, and calling
    it again returns the same row and changes nothing. *)
Theorem get_or_create_user_stores (w : World) (user_id : Z)
    (username first_name : option string) :
  exists row w',
    get_or_create_user user_id username first_name w = (Returns (Some row), w') /\
    row = default (new_user user_id username first_name (clock w)) (users w !! user_id) /\
    users w' !! user_id = Some row /\
    (forall other : Z, other <> user_id -> users w' !! other = users w !! other) /\
    transactions w' = transactions w /\
    level_ups w' = level_ups w /\
    outbox w' = outbox w /\
    get_or_create_user user_id username first_name w' = (Returns (Some row), w').
Proof.
  destruct (users w !! user_id) as [u|] eqn:Hrow.
  - exists u, w. rewrite (get_or_create_user_existing _ _ _ _ _ Hrow).
    repeat split; auto.
  - eexists _, _. rewrite (get_or_create_user_new _ _ _ _ Hrow).
    split; [reflexivity|]. split; [reflexivity|].
    split; [cbn; apply lookup_insert_eq|].
    split; [intros other Hother; cbn; apply lookup_insert_ne; congruence|].
    repeat split.
    apply get_or_create_user_existing. cbn. apply lookup_insert_eq.
Qed.

(** X7. [update_user_xp] on a stored user, with three times the new xp
    below 2^53, returns normally; its result is true exactly when the level
    the code computes for the new xp is above the stored one; the row gets
    the new xp, level, coins, message count and [last_active] and keeps rank
    and daily state; one [level_ups] entry is appended exactly when the
    result is true; the transactions, the messages sent and the other rows
    are untouched. *)
Theorem update_user_xp_effects (w : World) (user_id xp_gain coins_gain : Z) (u : User) :
  users w !! user_id = Some u ->
  3 * (row_xp u + xp_gain) < 2 ^ 53 ->
  exists new_level level_up w' u',
    calculate_level_binary64 (row_xp u + xp_gain) = Returns new_level /\
    update_user_xp user_id xp_gain coins_gain w = (Returns level_up, w') /\
    level_up = (row_level u <? new_level) /\
    users w' !! user_id = Some u' /\
    row_xp u' = row_xp u + xp_gain /\
    row_level u' = new_level /\
    row_coins u' = row_coins u + coins_gain /\
    row_total_messages u' = row_total_messages u + 1 /\
    row_last_active u' = clock w /\
    row_rank u' = row_rank u /\
    row_last_daily u' = row_last_daily u /\
    row_daily_streak u' = row_daily_streak u /\
    level_ups w' =
      level_ups w ++
      (if level_up
       then [ {| lu_user_id := user_id; lu_old_level := row_level u;
                 lu_new_level := new_level; lu_timestamp := clock w |} ]
       else []) /\
    transactions w' = transactions w /\
    outbox w' = outbox w /\
    (forall other : Z, other <> user_id -> users w' !! other = users w !! other).
Proof.
  intros Hrow Hbound.
  destruct (calculate_level_total (row_xp u + xp_gain)) as [new_level Hlevel].
  exists new_level, (row_level u <? new_level).
  rewrite (update_user_xp_existing _ _ _ _ _ _ Hrow Hlevel). cbv zeta.
  apply (calculate_level_binary64_small _ _ Hbound) in Hlevel.
  rewrite Z.gtb_ltb.
  destruct (row_level u <? new_level); eexists _, _;
    (split; [exact Hlevel|]); (split; [reflexivity|]); (split; [reflexivity|]);
    (split; [cbn; apply lookup_insert_eq|]); cbn;
    repeat split; try (symmetry; apply app_nil_r);
    intros other Hother; apply lookup_insert_ne; congruence.
Qed.

Lemma update_user_xp_effects_witness :
  users (example_world (example_row 100 None 0)) !! 7 = Some (example_row 100 None 0) /\
  3 * (row_xp (example_row 100 None 0) + 5) < 2 ^ 53 /\
  exists new_level level_up w' u',
    calculate_level_binary64 (row_xp (example_row 100 None 0) + 5) = Returns new_level /\
    update_user_xp 7 5 2 (example_world (example_row 100 None 0))
      = (Returns level_up, w') /\
    level_up = (row_level (example_row 100 None 0) <? new_level) /\
    users w' !! 7 = Some u' /\
    row_xp u' = row_xp (example_row 100 None 0) + 5 /\
    row_level u' = new_level /\
    row_coins u' = row_coins (example_row 100 None 0) + 2 /\
    row_total_messages u' = row_total_messages (example_row 100 None 0) + 1 /\
    row_last_active u' = clock (example_world (example_row 100 None 0)) /\
    row_rank u' = row_rank (example_row 100 None 0) /\
    row_last_daily u' = row_last_daily (example_row 100 None 0) /\
    row_daily_streak u' = row_daily_streak (example_row 100 None 0) /\
    level_ups w' =
      level_ups (example_world (example_row 100 None 0)) ++
      (if level_up
       then [ {| lu_user_id := 7; lu_old_level := row_level (example_row 100 None 0);
                 lu_new_level := new_level;
                 lu_timestamp := clock (example_world (example_row 100 None 0)) |} ]
       else []) /\
    transactions w' = transactions (example_world (example_row 100 None 0)) /\
    outbox w' = outbox (example_world (example_row 100 None 0)) /\
    (forall other : Z,
       other <> 7 ->
       users w' !! other = users (example_world (example_row 100 None 0)) !! other).
Proof.
  assert (Hrow : users (example_world (example_row 100 None 0)) !! 7
                 = Some (example_row 100 None 0)) by apply lookup_singleton_eq.
  assert (Hbound : 3 * (row_xp (example_row 100 None 0) + 5) < 2 ^ 53)
    by (vm_compute; reflexivity).
  split; [exact Hrow|]. split; [exact Hbound|].
  exact (update_user_xp_effects (example_world (example_row 100 None 0)) 7 5 2
           (example_row 100 None 0) Hrow Hbound).
Defined.

(** X8. When the stored level is the level the code computes for the stored
    xp, the gain is not negative and three times the new xp is below 2^53,
    [update_user_xp] keeps that relation and never lowers the level. *)
Theorem update_user_xp_level_never_drops (w : World) (user_id xp_gain coins_gain : Z)
    (u : User) :
  users w !! user_id = Some u ->
  calculate_level_binary64 (row_xp u) = Returns (row_level u) ->
  0 <= xp_gain ->
  3 * (row_xp u + xp_gain) < 2 ^ 53 ->
  exists u',
    users (snd (update_user_xp user_id xp_gain coins_gain w)) !! user_id = Some u' /\
    calculate_level_binary64 (row_xp u') = Returns (row_level u') /\
    row_level u <= row_level u'.
Proof.
  intros Hrow Hinv Hgain Hbound.
  destruct (calculate_level_total (row_xp u + xp_gain)) as [new_level Hlevel].
  rewrite (update_user_xp_existing _ _ _ _ _ _ Hrow Hlevel). cbv zeta.
  apply (calculate_level_binary64_small _ _ Hbound) in Hlevel.
  assert (Hle : row_level u <= new_level).
  { apply (calculate_level_binary64_le (row_xp u) (row_xp u + xp_gain));
      [lia|assumption..]. }
  destruct (new_level >? row_level u); eexists;
    (split; [cbn; apply lookup_insert_eq|]); cbn; split; assumption.
Qed.

Lemma update_user_xp_level_never_drops_witness :
  users (example_world (example_row 100 None 0)) !! 7 = Some (example_row 100 None 0) /\
  calculate_level_binary64 (row_xp (example_row 100 None 0))
    = Returns (row_level (example_row 100 None 0)) /\
  0 <= 5 /\
  3 * (row_xp (example_row 100 None 0) + 5) < 2 ^ 53 /\
  exists u',
    users (snd (update_user_xp 7 5 2 (example_world (example_row 100 None 0)))) !! 7
      = Some u' /\
    calculate_level_binary64 (row_xp u') = Returns (row_level u') /\
    row_level (example_row 100 None 0) <= row_level u'.
Proof.
  assert (Hrow : users (example_world (example_row 100 None 0)) !! 7
                 = Some (example_row 100 None 0)) by apply lookup_singleton_eq.
  assert (Hgain : 0 <= 5) by lia.
  assert (Hbound : 3 * (row_xp (example_row 100 None 0) + 5) < 2 ^ 53)
    by (vm_compute; reflexivity).
  split; [exact Hrow|]. split; [reflexivity|]. split; [exact Hgain|].
  split; [exact Hbound|].
  exact (update_user_xp_level_never_drops (example_world (example_row 100 None 0)) 7 5 2
           (example_row 100 None 0) Hrow eq_refl Hgain Hbound).
Defined.

Lemma handle_message_not_qualifying_witness :
  ((chat_type {| chat_type := "private" |} <> "group" /\
    chat_type {| chat_type := "private" |} <> "supergroup") \/
   is_bot example_user = true) /\
  handle_message example_user {| chat_type := "private" |}
      (example_world (example_row 100 None 0))
    = (Returns tt, example_world (example_row 100 None 0)).
Proof.
  assert (Hskip : (chat_type {| chat_type := "private" |} <> "group" /\
                   chat_type {| chat_type := "private" |} <> "supergroup") \/
                  is_bot example_user = true)
    by (left; split; discriminate).
  split; [exact Hskip|].
  exact (handle_message_not_qualifying (example_world (example_row 100 None 0))
           example_user {| chat_type := "private" |} Hskip).
Defined.

Lemma handle_message_new_user_witness :
  (chat_type example_group = "group" \/ chat_type example_group = "supergroup") /\
  is_bot example_newcomer = false /\
  users (example_world (example_row 100 None 0)) !! tg_id example_newcomer = None /\
  handle_message example_newcomer example_group (example_world (example_row 100 None 0)) =
    (Returns tt,
     with_users
       <[tg_id example_newcomer :=
           set_last_active (clock (example_world (example_row 100 None 0)))
             (set_total_messages 1
                (set_coins (100 + COINS_PER_MESSAGE)
                   (set_level 1
                      (set_xp XP_PER_MESSAGE
                         (new_user (tg_id example_newcomer) None None
                            (clock (example_world (example_row 100 None 0))))))))]>
       (example_world (example_row 100 None 0))).
Proof.
  assert (Hchat : chat_type example_group = "group"
                  \/ chat_type example_group = "supergroup") by (right; reflexivity).
  assert (Hbot : is_bot example_newcomer = false) by reflexivity.
  assert (Hnew : users (example_world (example_row 100 None 0)) !! tg_id example_newcomer
                 = None) by (apply lookup_singleton_ne; discriminate).
  split; [exact Hchat|]. split; [exact Hbot|]. split; [exact Hnew|].
  exact (handle_message_new_user (example_world (example_row 100 None 0))
           example_newcomer example_group Hchat Hbot Hnew).
Defined.



(** ** Daily reward: further properties *)

(** X13. For streaks from 0 up the daily reward never shrinks as the streak
    grows and stays between the base amount and three times the base
    amount, for coins and for xp. *)
Theorem daily_reward_bounds (s1 s2 : Z) :
  0 <= s1 -> s1 <= s2 ->
  DAILY_REWARD_COINS <= fst (daily_reward s1) <= fst (daily_reward s2) /\
  fst (daily_reward s2) <= 3 * DAILY_REWARD_COINS /\
  DAILY_REWARD_XP <= snd (daily_reward s1) <= snd (daily_reward s2) /\
  snd (daily_reward s2) <= 3 * DAILY_REWARD_XP.
Proof.
  intros H1 H12. unfold daily_reward, streak_bonus, DAILY_REWARD_COINS, DAILY_REWARD_XP.
  cbn [fst snd].
  assert (Hb1 : 0 <= Z.min (s1 * 10) 200 <= Z.min (s2 * 10) 200) by lia.
  assert (Hb2 : Z.min (s2 * 10) 200 <= 200) by lia.
  set (b1 := Z.min (s1 * 10) 200) in *. set (b2 := Z.min (s2 * 10) 200) in *.
  assert (0 <= 100 * b1 / 100) by (apply Z.div_pos; lia).
  assert (100 * b1 / 100 <= 100 * b2 / 100) by (apply Z.div_le_mono; lia).
  assert (100 * b2 / 100 <= 200) by (apply Z.div_le_upper_bound; lia).
  assert (0 <= 50 * b1 / 100) by (apply Z.div_pos; lia).
  assert (50 * b1 / 100 <= 50 * b2 / 100) by (apply Z.div_le_mono; lia).
  assert (50 * b2 / 100 <= 100) by (apply Z.div_le_upper_bound; lia).
  lia.
Qed.

Lemma daily_reward_bounds_witness :
  0 <= 3 /\ 3 <= 30 /\
  DAILY_REWARD_COINS <= fst (daily_reward 3) <= fst (daily_reward 30) /\
  fst (daily_reward 30) <= 3 * DAILY_REWARD_COINS /\
  DAILY_REWARD_XP <= snd (daily_reward 3) <= snd (daily_reward 30) /\
  snd (daily_reward 30) <= 3 * DAILY_REWARD_XP.
Proof.
  split; [lia|]. split; [lia|]. apply daily_reward_bounds; lia.
Defined.

(** X14. At a valid time of day [time_until_next_day] returns
    ["<hours>h <minutes>m"] with hours below 24 and minutes below 60, which
    are the whole seconds left until midnight rounded down to the minute;
    at exactly midnight it returns ["0h 0m"], the whole day that is left
    being dropped with the [days] part of the difference. *)
Theorem time_until_next_day_bounds (w : World) :
  0 <= hour (clock w) < 24 -> 0 <= minute (clock w) < 60 ->
  0 <= second (clock w) < 60 -> 0 <= microsecond (clock w) < 1000000 ->
  exists hours minutes,
    time_until_next_day w =
      (Returns (pretty hours +:+ "h " +:+ pretty minutes +:+ "m"), w) /\
    0 <= hours < 24 /\ 0 <= minutes < 60 /\
    let elapsed :=
      ((hour (clock w) * 60 + minute (clock w)) * 60 + second (clock w)) * 1000000
      + microsecond (clock w) in
    if elapsed =? 0 then hours = 0 /\ minutes = 0
    else hours * 3600 + minutes * 60
           <= (86400 * 1000000 - elapsed) / 1000000
           < hours * 3600 + minutes * 60 + 60.
Proof.
  intros Hh Hm Hs Hus. unfold time_until_next_day, bind. cbn [datetime_now ret].
  unfold microseconds_per_day.
  set (elapsed := ((hour (clock w) * 60 + minute (clock w)) * 60 + second (clock w))
                  * 1000000 + microsecond (clock w)).
  assert (Hel : 0 <= elapsed < 86400 * 1000000) by (unfold elapsed; lia).
  eexists _, _. split; [reflexivity|].
  destruct (Z.eqb_spec elapsed 0) as [Hzero|Hpos].
  - rewrite Hzero. vm_compute. repeat split; discriminate.
  - rewrite Z.mod_small by lia.
    set (left_s := (86400 * 1000000 - elapsed) / 1000000).
    assert (Hleft : 0 <= left_s < 86400).
    { unfold left_s. split; [apply Z.div_pos; lia|].
      apply Z.div_lt_upper_bound; lia. }
    pose proof (Z.div_mod left_s 3600 ltac:(lia)) as Hdm.
    pose proof (Z.mod_pos_bound left_s 3600 ltac:(lia)) as Hmb.
    pose proof (Z.div_mod (left_s mod 3600) 60 ltac:(lia)) as Hdm2.
    pose proof (Z.mod_pos_bound (left_s mod 3600) 60 ltac:(lia)) as Hmb2.
    assert (0 <= left_s / 3600 < 24).
    { split; [apply Z.div_pos; lia|apply Z.div_lt_upper_bound; lia]. }
    assert (0 <= left_s mod 3600 / 60 < 60).
    { split; [apply Z.div_pos; lia|apply Z.div_lt_upper_bound; lia]. }
    cbv zeta. lia.
Qed.

Lemma time_until_next_day_bounds_witness :
  0 <= hour (clock (example_world (example_row 100 None 0))) < 24 /\
  0 <= minute (clock (example_world (example_row 100 None 0))) < 60 /\
  0 <= second (clock (example_world (example_row 100 None 0))) < 60 /\
  0 <= microsecond (clock (example_world (example_row 100 None 0))) < 1000000 /\
  exists hours minutes,
    time_until_next_day (example_world (example_row 100 None 0)) =
      (Returns (pretty hours +:+ "h " +:+ pretty minutes +:+ "m"),
       example_world (example_row 100 None 0)) /\
    0 <= hours < 24 /\ 0 <= minutes < 60 /\
    let elapsed :=
      ((hour (clock (example_world (example_row 100 None 0))) * 60
        + minute (clock (example_world (example_row 100 None 0)))) * 60
       + second (clock (example_world (example_row 100 None 0)))) * 1000000
      + microsecond (clock (example_world (example_row 100 None 0))) in
    if elapsed =? 0 then hours = 0 /\ minutes = 0
    else hours * 3600 + minutes * 60
           <= (86400 * 1000000 - elapsed) / 1000000
           < hours * 3600 + minutes * 60 + 60.
Proof.
  assert (Hh : 0 <= hour (clock (example_world (example_row 100 None 0))) < 24)
    by (cbn; lia).
  assert (Hm : 0 <= minute (clock (example_world (example_row 100 None 0))) < 60)
    by (cbn; lia).
  assert (Hs : 0 <= second (clock (example_world (example_row 100 None 0))) < 60)
    by (cbn; lia).
  assert (Hus : 0 <= microsecond (clock (example_world (example_row 100 None 0)))
                < 1000000) by (cbn; lia).
  split; [exact Hh|]. split; [exact Hm|]. split; [exact Hs|]. split; [exact Hus|].
  exact (time_until_next_day_bounds (example_world (example_row 100 None 0))
           Hh Hm Hs Hus).
Defined.

(** X15. The grant block of [daily_command] for a stored user, with three
    times the new xp below 2^53, returns normally; the row gets the level
    the code computes for its new xp, [last_daily] set to now and the given
    streak, and keeps message count and rank; one transaction of type
    "daily_reward" is appended whose amount is the coins added; no
    [level_ups] entry is ever appended, even when the level rises; no other
    row changes. *)
Theorem daily_grant_effects (w : World) (user : TelegramUser) (streak : Z) (u : User) :
  users w !! tg_id user = Some u ->
  3 * (row_xp u + snd (daily_reward streak)) < 2 ^ 53 ->
  exists new_level u',
    calculate_level_binary64 (row_xp u + snd (daily_reward streak))
      = Returns new_level /\
    fst (daily_grant user streak w) = Returns tt /\
    users (snd (daily_grant user streak w)) !! tg_id user = Some u' /\
    row_level u' = new_level /\
    calculate_level_binary64 (row_xp u') = Returns (row_level u') /\
    row_last_daily u' = Some (clock w) /\
    row_daily_streak u' = streak /\
    row_total_messages u' = row_total_messages u /\
    row_rank u' = row_rank u /\
    transactions (snd (daily_grant user streak w)) =
      transactions w ++
      [ {| tx_user_id := tg_id user; tx_type := "daily_reward";
           tx_amount := row_coins u' - row_coins u;
           tx_description := "Daily reward (streak: " +:+ pretty streak +:+ ")";
           tx_timestamp := clock w |} ] /\
    level_ups (snd (daily_grant user streak w)) = level_ups w /\
    (forall other : Z,
       other <> tg_id user ->
       users (snd (daily_grant user streak w)) !! other = users w !! other).
Proof.
  intros Hrow Hbound.
  destruct (calculate_level_total (row_xp u + snd (daily_reward streak)))
    as [new_level Hlevel].
  rewrite (daily_grant_existing _ _ _ _ _ Hrow Hlevel).
  apply (calculate_level_binary64_small _ _ Hbound) in Hlevel.
  eexists new_level, _. split; [exact Hlevel|]. split; [reflexivity|].
  split; [cbn; apply lookup_insert_eq|]. cbn.
  repeat split; try assumption.
  - do 2 f_equal. f_equal. lia.
  - intros other Hother. apply lookup_insert_ne. congruence.
Qed.

Lemma daily_grant_effects_witness :
  users (example_world (example_row 100 None 0)) !! tg_id example_user
    = Some (example_row 100 None 0) /\
  3 * (row_xp (example_row 100 None 0) + snd (daily_reward 4)) < 2 ^ 53 /\
  exists new_level u',
    calculate_level_binary64 (row_xp (example_row 100 None 0) + snd (daily_reward 4))
      = Returns new_level /\
    fst (daily_grant example_user 4 (example_world (example_row 100 None 0)))
      = Returns tt /\
    users (snd (daily_grant example_user 4 (example_world (example_row 100 None 0))))
      !! tg_id example_user = Some u' /\
    row_level u' = new_level /\
    calculate_level_binary64 (row_xp u') = Returns (row_level u') /\
    row_last_daily u' = Some (clock (example_world (example_row 100 None 0))) /\
    row_daily_streak u' = 4 /\
    row_total_messages u' = row_total_messages (example_row 100 None 0) /\
    row_rank u' = row_rank (example_row 100 None 0) /\
    transactions (snd (daily_grant example_user 4
                         (example_world (example_row 100 None 0)))) =
      transactions (example_world (example_row 100 None 0)) ++
      [ {| tx_user_id := tg_id example_user; tx_type := "daily_reward";
           tx_amount := row_coins u' - row_coins (example_row 100 None 0);
           tx_description := "Daily reward (streak: " +:+ pretty 4 +:+ ")";
           tx_timestamp := clock (example_world (example_row 100 None 0)) |} ] /\
    level_ups (snd (daily_grant example_user 4
                      (example_world (example_row 100 None 0))))
      = level_ups (example_world (example_row 100 None 0)) /\
    (forall other : Z,
       other <> tg_id example_user ->
       users (snd (daily_grant example_user 4
                     (example_world (example_row 100 None 0)))) !! other
         = users (example_world (example_row 100 None 0)) !! other).
Proof.
  assert (Hrow : users (example_world (example_row 100 None 0)) !! tg_id example_user
                 = Some (example_row 100 None 0)) by apply lookup_singleton_eq.
  assert (Hbound : 3 * (row_xp (example_row 100 None 0) + snd (daily_reward 4)) < 2 ^ 53)
    by (vm_compute; reflexivity).
  split; [exact Hrow|]. split; [exact Hbound|].
  exact (daily_grant_effects (example_world (example_row 100 None 0)) example_user 4
           (example_row 100 None 0) Hrow Hbound).
Defined.



(** ** Shop: further properties *)

Lemma set_coins_same (u : User) : set_coins (row_coins u) u = u.
Proof. destruct u. reflexivity. Qed.

Lemma dict_getitem_In {V} (d : list (string * V)) (k : string) (v : V) :
  dict_getitem d k = Some v -> In v (map snd d).
Proof.
  induction d as [|[k' v'] d IH]; simpl; [discriminate|].
  destruct (String.eqb k' k); [intros [= ->]; left; reflexivity|].
  intros H. right. exact (IH H).
Qed.

(** Every catalogue price is positive. *)
Lemma shop_price_pos (item_name : string) (item_data : ShopItem) :
  dict_getitem SHOP_ITEMS item_name = Some item_data -> 0 < price item_data.
Proof.
  intros Hget. apply dict_getitem_In in Hget.
  assert (Hall : forallb (fun item_data => 0 <? price item_data) (map snd SHOP_ITEMS)
                 = true) by (vm_compute; reflexivity).
  rewrite forallb_forall in Hall. apply Z.ltb_lt. exact (Hall _ Hget).
Qed.



(** X18. Whatever callback data of at most 64 printable ASCII characters
    other than the space arrive (64 bytes is the most a button carries),
    [handle_shop_purchase] for a stored user with a non-negative balance
    returns normally and sends exactly one message; the row changes in its
    coins only, which stay non-negative and never grow; a transaction is
    logged exactly when coins were debited; [level_ups] is untouched. *)
Theorem handle_shop_purchase_safe (w : World) (user : TelegramUser) (u : User)
    (callback_data : string) :
  users w !! tg_id user = Some u ->
  0 <= row_coins u ->
  ascii_graphic callback_data = true ->
  (String.length callback_data <= 64)%nat ->
  exists reply new_coins,
    fst (handle_shop_purchase user callback_data w) = Returns tt /\
    outbox (snd (handle_shop_purchase user callback_data w)) = outbox w ++ [reply] /\
    users (snd (handle_shop_purchase user callback_data w)) =
      <[tg_id user := set_coins new_coins u]> (users w) /\
    0 <= new_coins <= row_coins u /\
    (new_coins = row_coins u <->
     transactions (snd (handle_shop_purchase user callback_data w)) = transactions w) /\
    level_ups (snd (handle_shop_purchase user callback_data w)) = level_ups w.
Proof.
  intros Hrow Hcoins _ _.
  assert (Hkeep : users w = <[tg_id user := set_coins (row_coins u) u]> (users w))
    by (rewrite set_coins_same; symmetry; apply insert_id; exact Hrow).
  assert (Hfail : forall r : Reply,
            let w' := with_outbox (fun sent => sent ++ [r]) w in
            exists reply new_coins,
              Returns tt = Returns tt /\
              outbox w' = outbox w ++ [reply] /\
              users w' = <[tg_id user := set_coins new_coins u]> (users w) /\
              0 <= new_coins <= row_coins u /\
              (new_coins = row_coins u <-> transactions w' = transactions w) /\
              level_ups w' = level_ups w).
  { intros r. exists r, (row_coins u). cbn. repeat split; try assumption; lia. }
  destruct (list_getitem (split "_" callback_data) 1) as [index_text|] eqn:Hsplit;
    [|unfold handle_shop_purchase, try_except, bind; rewrite Hsplit; apply Hfail].
  destruct (int_of_str index_text) as [item_index|] eqn:Hint;
    [|unfold handle_shop_purchase, try_except, bind; rewrite Hsplit; cbn [or_raise ret];
      rewrite Hint; apply Hfail].
  destruct (list_getitem (keys SHOP_ITEMS) item_index) as [item_name|] eqn:Hname;
    [|unfold handle_shop_purchase, try_except, bind; rewrite Hsplit; cbn [or_raise ret];
      rewrite Hint; cbn [or_raise ret]; rewrite Hname; apply Hfail].
  destruct (dict_getitem SHOP_ITEMS item_name) as [item_data|] eqn:Hdata;
    [|unfold handle_shop_purchase, try_except, bind; rewrite Hsplit; cbn [or_raise ret];
      rewrite Hint; cbn [or_raise ret]; rewrite Hname; cbn [or_raise ret];
      rewrite Hdata; apply Hfail].
  rewrite (handle_shop_purchase_existing _ _ _ _ _ _ _ _ Hsplit Hint Hname Hdata Hrow).
  pose proof (shop_price_pos _ _ Hdata) as Hprice.
  destruct (Z.ltb_spec (row_coins u) (price item_data)) as [Hlt|Hge]; [apply Hfail|].
  eexists _, (row_coins u - price item_data). cbn.
  split; [reflexivity|]. split; [reflexivity|]. split; [reflexivity|].
  split; [lia|]. split; [|reflexivity].
  split; [lia|]. intros Habs. apply (f_equal (@length _)) in Habs.
  rewrite length_app in Habs. cbn in Habs. lia.
Qed.

Lemma handle_shop_purchase_safe_witness :
  users (example_world (example_row 2500 None 0)) !! tg_id example_user
    = Some (example_row 2500 None 0) /\
  0 <= row_coins (example_row 2500 None 0) /\
  ascii_graphic "buy_x" = true /\
  (String.length "buy_x" <= 64)%nat /\
  exists reply new_coins,
    fst (handle_shop_purchase example_user "buy_x"
           (example_world (example_row 2500 None 0))) = Returns tt /\
    outbox (snd (handle_shop_purchase example_user "buy_x"
                   (example_world (example_row 2500 None 0))))
      = outbox (example_world (example_row 2500 None 0)) ++ [reply] /\
    users (snd (handle_shop_purchase example_user "buy_x"
                  (example_world (example_row 2500 None 0)))) =
      <[tg_id example_user := set_coins new_coins (example_row 2500 None 0)]>
        (users (example_world (example_row 2500 None 0))) /\
    0 <= new_coins <= row_coins (example_row 2500 None 0) /\
    (new_coins = row_coins (example_row 2500 None 0) <->
     transactions (snd (handle_shop_purchase example_user "buy_x"
                          (example_world (example_row 2500 None 0))))
       = transactions (example_world (example_row 2500 None 0))) /\
    level_ups (snd (handle_shop_purchase example_user "buy_x"
                      (example_world (example_row 2500 None 0))))
      = level_ups (example_world (example_row 2500 None 0)).
Proof.
  assert (Hrow : users (example_world (example_row 2500 None 0)) !! tg_id example_user
                 = Some (example_row 2500 None 0)) by apply lookup_singleton_eq.
  assert (Hcoins : 0 <= row_coins (example_row 2500 None 0)) by (cbn; lia).
  assert (Hlength : (String.length "buy_x" <= 64)%nat) by (cbn; lia).
  split; [exact Hrow|]. split; [exact Hcoins|]. split; [reflexivity|].
  split; [exact Hlength|].
  exact (handle_shop_purchase_safe (example_world (example_row 2500 None 0)) example_user
           (example_row 2500 None 0) "buy_x" Hrow Hcoins eq_refl Hlength).
Defined.

(** *** Button data: writing an index and reading it back *)

Lemma digit_value_pretty_N_char (d : N) :
  (d < 10)%N -> digit_value (pretty_N_char d) = Some (Z.of_N d).
Proof.
  intros Hd.
  assert (d = 0 \/ d = 1 \/ d = 2 \/ d = 3 \/ d = 4 \/ d = 5 \/ d = 6 \/ d = 7
          \/ d = 8 \/ d = 9)%N as Hcases by lia.
  repeat destruct Hcases as [->|Hcases]; try subst d; reflexivity.
Qed.

Lemma pretty_N_char_not_sep (d : N) : Ascii.eqb (pretty_N_char d) "_" = false.
Proof. unfold pretty_N_char. repeat case_match; reflexivity. Qed.

(** The digits [pretty_N_go] puts in front of [s] read back as the number. *)
Lemma digits_value_pretty_N_go (x : N) :
  exists p : Z, forall (acc : Z) (s : string),
    digits_value acc (pretty_N_go x s) = digits_value (acc * p + Z.of_N x) s.
Proof.
  induction (N.lt_wf_0 x) as [x _ IH].
  destruct (N.eq_0_gt_0_cases x) as [->|Hpos].
  - exists 1. intros acc s. rewrite pretty_N_go_0. f_equal. lia.
  - destruct (IH (x `div` 10)%N) as [p Hp]; [apply N.div_lt; lia|].
    exists (10 * p). intros acc s.
    rewrite pretty_N_go_step by exact Hpos. rewrite Hp. cbn [digits_value].
    rewrite digit_value_pretty_N_char by (apply N.mod_lt; lia).
    f_equal. pose proof (N.div_mod x 10 ltac:(lia)) as Hdm.
    apply (f_equal Z.of_N) in Hdm. rewrite N2Z.inj_add, N2Z.inj_mul in Hdm.
    change (Z.of_N 10) with 10 in Hdm. lia.
Qed.

(** ... and they contain no underscore. *)
Lemma split_pretty_N_go (x : N) (s : string) :
  split "_" (pretty_N_go x s) =
    match split "_" s with
    | [] => [pretty_N_go x ""]
    | part :: parts => pretty_N_go x part :: parts
    end.
Proof.
  revert s. induction (N.lt_wf_0 x) as [x _ IH]; intros s.
  assert (Hne : split "_" s <> []) by (destruct s as [|c r]; cbn;
    [discriminate|destruct (Ascii.eqb c "_"); [discriminate|destruct (split "_" r); discriminate]]).
  destruct (N.eq_0_gt_0_cases x) as [->|Hpos].
  - rewrite pretty_N_go_0. destruct (split "_" s) as [|part parts] eqn:Hs; [contradiction|].
    rewrite pretty_N_go_0. reflexivity.
  - rewrite pretty_N_go_step by exact Hpos. rewrite IH by (apply N.div_lt; lia).
    cbn [split]. rewrite pretty_N_char_not_sep.
    destruct (split "_" s) as [|part parts] eqn:Hs; [contradiction|].
    rewrite (pretty_N_go_step x part) by exact Hpos. reflexivity.
Qed.

Lemma int_of_str_digits (s : string) (v : Z) :
  s <> "" -> digits_value 0 s = Some v -> int_of_str s = Some v.
Proof.
  intros Hne Hval. destruct s as [|c r]; [contradiction|].
  cbn [digits_value] in Hval.
  destruct (digit_value c) as [d|] eqn:Hd; [|discriminate].
  assert (Hhead : int_of_str (String c r) = digits_value 0 (String c r)).
  { destruct c as [[] [] [] [] [] [] [] []]; try discriminate Hd; reflexivity. }
  rewrite Hhead. cbn [digits_value]. rewrite Hd. exact Hval.
Qed.

Lemma pretty_positive_digits (x : positive) :
  pretty x <> "" /\ digits_value 0 (pretty x) = Some (Zpos x) /\
  split "_" (pretty x) = [pretty x].
Proof.
  change (pretty x) with (pretty_N_go (Npos x) "").
  destruct (digits_value_pretty_N_go (Npos x)) as [p Hp].
  assert (Hval : digits_value 0 (pretty_N_go (N.pos x) "") = Some (Zpos x))
    by (rewrite Hp; cbn; f_equal).
  split; [|split; [exact Hval|]].
  - intros Hempty. rewrite Hempty in Hval. discriminate.
  - rewrite split_pretty_N_go. reflexivity.
Qed.

Lemma split_buy (s : string) : split "_" ("buy_" +:+ s) = "buy" :: split "_" s.
Proof. reflexivity. Qed.

Lemma buy_callback_index (i : Z) :
  list_getitem (split "_" ("buy_" +:+ pretty i)) 1 = Some (pretty i) /\
  int_of_str (pretty i) = Some i.
Proof.
  destruct i as [|x|x].
  - split; reflexivity.
  - destruct (pretty_positive_digits x) as (Hne & Hval & Hsplit).
    change (pretty (Z.pos x)) with (pretty x). split.
    + rewrite split_buy, Hsplit. reflexivity.
    + apply int_of_str_digits; assumption.
  - destruct (pretty_positive_digits x) as (Hne & Hval & Hsplit).
    change (pretty (Z.neg x)) with (String "-" (pretty x)). split.
    + rewrite split_buy. cbn [split]. change (Ascii.eqb "-" "_") with false.
      cbv iota. rewrite Hsplit. reflexivity.
    + destruct (pretty x) as [|c r] eqn:Hdigits; [contradiction|].
      cbn [int_of_str]. rewrite Hval. reflexivity.
Qed.

(** X19. The data of a buy button round-trips: for every integer index,
    what [handle_shop_purchase] splits off and parses from
    ["buy_" + str(index)], the data [shop_command] builds, is that index. *)
Theorem buy_button_round_trip (i : Z) :
  list_getitem (split "_" ("buy_" +:+ pretty i)) 1 = Some (pretty i) /\
  int_of_str (pretty i) = Some i.
Proof. exact (buy_callback_index i). Qed.

(** X20. An index outside the catalogue (5 or more, or below -5) makes
    [handle_shop_purchase] answer with the generic failure text; the store
    is neither read nor written, whoever the user is. *)
Theorem shop_purchase_index_out_of_range (w : World) (user : TelegramUser) (i : Z) :
  i < -5 \/ 5 <= i ->
  handle_shop_purchase user ("buy_" +:+ pretty i) w =
    (Returns tt, with_outbox (fun sent => sent ++ [PurchaseFailedText]) w).
Proof.
  intros Hrange. destruct (buy_callback_index i) as [Hsplit Hint].
  unfold handle_shop_purchase, try_except, bind.
  rewrite Hsplit. cbn [or_raise ret]. rewrite Hint. cbn [or_raise ret].
  assert (Hmiss : list_getitem (keys SHOP_ITEMS) i = None).
  { unfold list_getitem. change (Z.of_nat (length (keys SHOP_ITEMS))) with 5.
    change (Z.opp 5) with (-5).
    destruct (Z.leb_spec 0 i); destruct (Z.ltb_spec i 5);
      destruct (Z.leb_spec (-5) i); destruct (Z.ltb_spec i 0);
      cbn [andb]; try reflexivity; lia. }
  rewrite Hmiss. reflexivity.
Qed.

Lemma shop_purchase_index_out_of_range_witness :
  (5 < -5 \/ 5 <= 5) /\
  handle_shop_purchase example_user ("buy_" +:+ pretty 5)
      (example_world (example_row 2500 None 0)) =
    (Returns tt,
     with_outbox (fun sent => sent ++ [PurchaseFailedText])
       (example_world (example_row 2500 None 0))).
Proof.
  assert (Hrange : 5 < -5 \/ 5 <= 5) by (right; lia).
  split; [exact Hrange|].
  exact (shop_purchase_index_out_of_range (example_world (example_row 2500 None 0))
           example_user 5 Hrange).
Defined.

(** X21. A negative index from -5 to -1 is accepted and addresses the
    catalogue from its end: the purchase behaves exactly as for the index
    plus 5. *)
Theorem shop_purchase_negative_index (w : World) (user : TelegramUser) (i : Z) :
  -5 <= i < 0 ->
  handle_shop_purchase user ("buy_" +:+ pretty i) w =
    handle_shop_purchase user ("buy_" +:+ pretty (5 + i)) w.
Proof.
  intros Hrange.
  assert (i = -5 \/ i = -4 \/ i = -3 \/ i = -2 \/ i = -1) as Hcases by lia.
  repeat destruct Hcases as [->|Hcases]; try subst i; reflexivity.
Qed.

Lemma shop_purchase_negative_index_witness :
  -5 <= -1 < 0 /\
  handle_shop_purchase example_user ("buy_" +:+ pretty (-1))
      (example_world (example_row 2500 None 0)) =
    handle_shop_purchase example_user ("buy_" +:+ pretty (5 + -1))
      (example_world (example_row 2500 None 0)).
Proof.
  assert (Hrange : -5 <= -1 < 0) by lia.
  split; [exact Hrange|].
  exact (shop_purchase_negative_index (example_world (example_row 2500 None 0))
           example_user (-1) Hrange).
Defined.

(** ** Rank upgrades: further properties *)



(** A paid "VIP" upgrade, whatever the rank was before. *)
Lemma handle_rank_upgrade_vip (w : World) (user : TelegramUser) (u : User) :
  users w !! tg_id user = Some u ->
  5000 <= row_coins u ->
  handle_rank_upgrade user "upgrade_vip" w =
    (Returns tt,
     {| users :=
          <[tg_id user := set_rank "VIP" (set_coins (row_coins u - 5000) u)]> (users w);
        transactions := transactions w ++
          [ {| tx_user_id := tg_id user; tx_type := "rank_upgrade";
               tx_amount := -5000; tx_description := "Upgraded to VIP";
               tx_timestamp := clock w |} ];
        level_ups := level_ups w;
        clock := clock w;
        outbox := outbox w ++
          [ RankUpgradeSuccessText "VIP" 5000 (row_coins u - 5000) ] |}).
Proof.
  intros Hrow Hafford.
  rewrite (handle_rank_upgrade_existing w user "upgrade_vip" "vip" 5000 u
             eq_refl eq_refl Hrow).
  destruct (Z.ltb_spec (row_coins u) 5000) as [Hlt|_]; [lia|reflexivity].
Qed.

(** X23. The handler does not check the current rank: pressing
    "upgrade_vip" twice with at least 10000 coins charges 5000 both times,
    the second time for the rank the user already has, and logs both
    debits. *)
Theorem rank_upgrade_vip_twice (w : World) (user : TelegramUser) (u : User) :
  users w !! tg_id user = Some u ->
  10000 <= row_coins u ->
  exists u1 u2,
    users (snd (handle_rank_upgrade user "upgrade_vip" w)) !! tg_id user = Some u1 /\
    row_rank u1 = "VIP" /\ row_coins u1 = row_coins u - 5000 /\
    users (snd (handle_rank_upgrade user "upgrade_vip"
                  (snd (handle_rank_upgrade user "upgrade_vip" w)))) !! tg_id user
      = Some u2 /\
    row_rank u2 = "VIP" /\ row_coins u2 = row_coins u - 10000 /\
    map tx_amount
        (transactions (snd (handle_rank_upgrade user "upgrade_vip"
                              (snd (handle_rank_upgrade user "upgrade_vip" w)))))
      = map tx_amount (transactions w) ++ [-5000; -5000].
Proof.
  intros Hrow Hrich.
  rewrite (handle_rank_upgrade_vip w user u Hrow) by lia. cbn [snd].
  erewrite handle_rank_upgrade_vip; [|cbn; apply lookup_insert_eq|cbn; lia].
  eexists _, _. cbn [snd users transactions].
  split; [apply lookup_insert_eq|]. split; [reflexivity|]. split; [reflexivity|].
  split; [apply lookup_insert_eq|]. split; [reflexivity|]. split; [cbn; lia|].
  rewrite !map_app. cbn. rewrite <- app_assoc. reflexivity.
Qed.

Lemma rank_upgrade_vip_twice_witness :
  users (example_world (example_row 20000 None 0)) !! tg_id example_user
    = Some (example_row 20000 None 0) /\
  10000 <= row_coins (example_row 20000 None 0) /\
  exists u1 u2,
    users (snd (handle_rank_upgrade example_user "upgrade_vip"
                  (example_world (example_row 20000 None 0)))) !! tg_id example_user
      = Some u1 /\
    row_rank u1 = "VIP" /\ row_coins u1 = row_coins (example_row 20000 None 0) - 5000 /\
    users (snd (handle_rank_upgrade example_user "upgrade_vip"
                  (snd (handle_rank_upgrade example_user "upgrade_vip"
                          (example_world (example_row 20000 None 0))))))
      !! tg_id example_user = Some u2 /\
    row_rank u2 = "VIP" /\ row_coins u2 = row_coins (example_row 20000 None 0) - 10000 /\
    map tx_amount
        (transactions (snd (handle_rank_upgrade example_user "upgrade_vip"
                              (snd (handle_rank_upgrade example_user "upgrade_vip"
                                      (example_world (example_row 20000 None 0)))))))
      = map tx_amount (transactions (example_world (example_row 20000 None 0)))
        ++ [-5000; -5000].
Proof.
  assert (Hrow : users (example_world (example_row 20000 None 0)) !! tg_id example_user
                 = Some (example_row 20000 None 0)) by apply lookup_singleton_eq.
  assert (Hrich : 10000 <= row_coins (example_row 20000 None 0)) by (cbn; lia).
  split; [exact Hrow|]. split; [exact Hrich|].
  exact (rank_upgrade_vip_twice (example_world (example_row 20000 None 0)) example_user
           (example_row 20000 None 0) Hrow Hrich).
Defined.

(** X24. [shop_command] shows the button of a rank of [RANK_PRICES] exactly
    when the rank is not the user's current one and the user can afford
    it. *)
Theorem shop_rank_buttons_offered (rank : string) (coins : Z) (r : string) (p : Z) :
  In (r, p) RANK_PRICES ->
  (In ("upgrade_" +:+ lower r) (shop_rank_buttons rank coins) <->
   rank <> r /\ p <= coins).
Proof.
  intros Hin. unfold shop_rank_buttons, RANK_PRICES. cbn [omap list_omap].
  destruct (String.eqb_spec rank "VIP") as [Hv|Hv];
    destruct (String.eqb_spec rank "Premium") as [Hp|Hp];
    destruct (String.eqb_spec rank "Admin") as [Ha|Ha];
    try congruence;
    destruct (Z.geb_spec coins 5000); destruct (Z.geb_spec coins 15000);
    destruct (Z.geb_spec coins 50000); try lia;
    destruct Hin as [[= <- <-]|[[= <- <-]|[[= <- <-]|[]]]];
    cbn; (split; [intros Hb; repeat destruct Hb as [Hb|Hb]; try discriminate;
                  try contradiction; (split; [congruence|lia])
                 |intros [Hne Hle]; try congruence; try lia; auto 6]).
Qed.

Lemma shop_rank_buttons_offered_witness :
  In ("Premium", 15000) RANK_PRICES /\
  (In ("upgrade_" +:+ lower "Premium") (shop_rank_buttons "VIP" 20000) <->
   "VIP" <> "Premium" /\ 15000 <= 20000).
Proof.
  assert (Hin : In ("Premium", 15000) RANK_PRICES) by (cbn; tauto).
  split; [exact Hin|].
  exact (shop_rank_buttons_offered "VIP" 20000 "Premium" 15000 Hin).
Defined.

Lemma rank_button_key_error_witness :
  In ("Admin", 50000) RANK_PRICES /\ "Admin" <> "VIP" /\
  handle_rank_upgrade example_user ("upgrade_" +:+ lower "Admin")
      (example_world (example_row 20000 None 0)) =
    (Returns tt,
     with_outbox (fun sent => sent ++ [RankUpgradeFailedText])
       (example_world (example_row 20000 None 0))).
Proof.
  assert (Hin : In ("Admin", 50000) RANK_PRICES) by (cbn; tauto).
  assert (Hne : "Admin" <> "VIP") by discriminate.
  split; [exact Hin|]. split; [exact Hne|].
  exact (rank_button_key_error (example_world (example_row 20000 None 0)) example_user
           "Admin" 50000 Hin Hne).
Defined.
